(** * AgriAssist AI front end (src/frontend/app.js): a shallow embedding

    The script is event-driven DOM wiring.  Each handler of the script is
    embedded as a function on an explicit model of the part of the page it
    touches:

    - [Tabs]: the tab controller ([initializeTabs]) over a document given
      as the list of its elements in document order;
    - the rest of the file: the named elements the other handlers fetch
      with [document.getElementById], as one record of their properties,
      and the handlers as programs of a small state/trace/exception monad.

    An [async] function runs to its first [await] inside the handler that
    called it and is resumed by the event loop when the awaited promise
    settles; it is embedded as the two handlers the event loop sees.  The
    registration of the service worker at the end of the script touches
    nothing of the page and is left out. *)

From Stdlib Require Import ZArith Ascii String.
From stdpp Require Import base decidable option list sets strings pretty.

(** ** Tab controller *)

Module Tabs.

(** An element, as far as [initializeTabs] looks at it: its [id]
    (the empty string when it has none), its class list and its
    [data-tab] attribute ([dataset.tab] is [undefined] when absent). *)
Record Element : Type := mkElement {
  el_id : string;
  classList : list string;
  dataset_tab : option string
}.

(** The document: its elements in document order. *)
Abbreviation Document := (list Element).

Definition set_classList (cl : list string) (e : Element) : Element :=
  {| el_id := el_id e; classList := cl; dataset_tab := dataset_tab e |}.

(** [e.classList.contains(tok)] *)
Definition classList_contains (tok : string) (e : Element) : bool :=
  bool_decide (tok ∈ classList e).

(** [e.classList.remove(tok)] *)
Definition classList_remove (tok : string) (e : Element) : Element :=
  set_classList (filter (λ c, c ≠ tok) (classList e)) e.

(** [e.classList.add(tok)]: a token already present is not added again. *)
Definition classList_add (tok : string) (e : Element) : Element :=
  if classList_contains tok e then e
  else set_classList (classList e ++ [tok]) e.

(** [document.querySelectorAll('.' + cls)]: the static list of the
    elements of that class, in document order; an element is named by
    its position in the document. *)
Definition querySelectorAll (cls : string) (doc : Document) : list nat :=
  filter (λ i, from_option (classList_contains cls) false (doc !! i) = true)
         (seq 0 (length doc)).

(** [document.getElementById(id)]: the first element, in document order,
    whose id is [id]; [null] when there is none.  The empty string is no
    id. *)
Definition getElementById (id : string) (doc : Document) : option nat :=
  if decide (id = EmptyString) then None
  else fst <$> list_find (λ e, el_id e = id) doc.

(** An argument [undefined] is converted to the string "undefined". *)
Definition arg_string (o : option string) : string :=
  default "undefined" o.

(** What [initializeTabs] captures in the closures of the listeners. *)
Record Controller : Type := mkController {
  tabBtns : list nat;
  tabPanes : list nat
}.

Definition initializeTabs (doc : Document) : Controller :=
  {| tabBtns := querySelectorAll "tab-btn" doc;
     tabPanes := querySelectorAll "tab-pane" doc |}.

(** [nodes.forEach(n => n.classList.remove('active'))] *)
Definition forEach_remove_active (nodes : list nat) (doc : Document)
  : Document :=
  foldl (λ d n, alter (classList_remove "active") n d) doc nodes.

(** The click listener of button [btn].  The result is the document
    after the listener and whether it completed: [getElementById]
    returning [null] makes [.classList] throw a [TypeError], after the
    button has been marked. *)
Definition on_click (c : Controller) (btn : nat) (doc : Document)
  : Document * bool :=
  let targetTab := arg_string (doc !! btn ≫= dataset_tab) in
  let doc := forEach_remove_active (tabBtns c) doc in
  let doc := forEach_remove_active (tabPanes c) doc in
  let doc := alter (classList_add "active") btn doc in
  match getElementById targetTab doc with
  | Some pane => (alter (classList_add "active") pane doc, true)
  | None => (doc, false)
  end.

(** A click on element [target]: only the captured buttons have a
    listener. *)
Definition click (c : Controller) (target : nat) (doc : Document)
  : Document :=
  if decide (target ∈ tabBtns c) then (on_click c target doc).1 else doc.

Definition clicks (c : Controller) (targets : list nat) (doc : Document)
  : Document :=
  foldl (λ d t, click c t d) doc targets.

Definition is_active (doc : Document) (i : nat) : bool :=
  from_option (classList_contains "active") false (doc !! i).

Definition count_active (nodes : list nat) (doc : Document) : nat :=
  length (filter (λ i, is_active doc i = true) nodes).

(** The target pane of button [b]. *)
Definition target_of (doc : Document) (b : nat) : option nat :=
  getElementById (arg_string (doc !! b ≫= dataset_tab)) doc.

(** The page the tab controller is written for: every tab button is
    tagged with the id of a content pane, and no button is itself a
    pane. *)
Definition matching (doc : Document) : Prop :=
  Forall (λ b, (b ∉ querySelectorAll "tab-pane" doc)
               ∧ from_option (λ p, p ∈ querySelectorAll "tab-pane" doc)
                             False (target_of doc b))
         (querySelectorAll "tab-btn" doc).

#[global] Instance matching_dec doc : Decision (matching doc).
Proof.
  unfold matching. apply Forall_dec. intros b. apply and_dec; [apply _|].
  destruct (target_of doc b); simpl; apply _.
Defined.

(** *** Vocabulary of the properties

    Two documents have the same frame when they agree, element by
    element, on everything but the token [active]: what a listener
    never changes. *)
Definition same_frame_el (e1 e2 : Element) : Prop :=
  el_id e1 = el_id e2 ∧ dataset_tab e1 = dataset_tab e2
  ∧ ∀ tok, tok ≠ "active" →
           classList_contains tok e1 = classList_contains tok e2.

Definition same_frame (d1 d2 : Document) : Prop :=
  Forall2 same_frame_el d1 d2.

(** The element at position [j] after the listener of button [b] has
    run, when the target of [b] is the element at position [p]. *)
Definition after_click (c : Controller) (b p j : nat) (e : Element)
  : Element :=
  let e := if decide (j ∈ tabBtns c) then classList_remove "active" e
           else e in
  let e := if decide (j ∈ tabPanes c) then classList_remove "active" e
           else e in
  let e := if decide (b = j) then classList_add "active" e else e in
  if decide (p = j) then classList_add "active" e else e.

(** A page with two tabs, the first one open. *)
Definition sample_tabs : Document :=
  [ mkElement EmptyString ["tab-btn"; "active"] (Some "analyze");
    mkElement EmptyString ["tab-btn"] (Some "chat");
    mkElement "analyze" ["tab-pane"; "active"] None;
    mkElement "chat" ["tab-pane"] None ].

End Tabs.

(** ** JavaScript strings and values *)

(** Strings stand for ASCII text.  The double quote and the line feed of
    the templates of the script: *)
Definition dq : string := String "034"%char EmptyString.
Definition nl : string := String "010"%char EmptyString.

Module JS.

(** *** Strings *)

(** White space and line terminators of ECMAScript, within ASCII:
    TAB, LF, VT, FF, CR and SPACE. *)
Definition is_white_space (c : ascii) : bool :=
  let n := nat_of_ascii c in
  bool_decide (9 ≤ n ≤ 13) || bool_decide (n = 32).

(** Line terminators, which [.] of a regular expression does not match. *)
Definition is_line_terminator (c : ascii) : bool :=
  let n := nat_of_ascii c in bool_decide (n = 10) || bool_decide (n = 13).

Fixpoint trimStart (s : string) : string :=
  match s with
  | EmptyString => EmptyString
  | String c s' => if is_white_space c then trimStart s' else s
  end.

(** [trimEnd] keeps a character when it is not white space or when
    something is left after it. *)
Fixpoint trimEnd (s : string) : string :=
  match s with
  | EmptyString => EmptyString
  | String c s' =>
      match trimEnd s' with
      | EmptyString =>
          if is_white_space c then EmptyString else String c EmptyString
      | t => String c t
      end
  end.

(** [s.trim()] *)
Definition trim (s : string) : string := trimEnd (trimStart s).

(** [s.startsWith(p)] *)
Definition startsWith (p s : string) : bool := String.prefix p s.

(** [s.substr(start, len)] for non-negative arguments. *)
Definition substr (start len : nat) (s : string) : string :=
  String.substring start len s.

Definition upper_char (c : ascii) : ascii :=
  let n := nat_of_ascii c in
  if bool_decide (97 ≤ n ≤ 122) then ascii_of_nat (n - 32) else c.

(** [s.toUpperCase()] *)
Fixpoint toUpperCase (s : string) : string :=
  match s with
  | EmptyString => EmptyString
  | String c s' => String (upper_char c) (toUpperCase s')
  end.

(** [s.replace(/pat/g, rep)] for a literal, non-empty pattern and a
    replacement without [$]: the matches are found left to right and do
    not overlap.  [skip] counts the characters of the current match that
    are still to be passed over. *)
Fixpoint replace_go (pat rep : string) (skip : nat) (s : string) : string :=
  match s with
  | EmptyString => EmptyString
  | String c s' =>
      match skip with
      | S k => replace_go pat rep k s'
      | O =>
          if String.prefix pat s
          then rep +:+ replace_go pat rep (String.length pat - 1) s'
          else String c (replace_go pat rep 0 s')
      end
  end.

Definition replaceAll (pat rep s : string) : string :=
  replace_go pat rep 0 s.

(** The lazy group of [/\*\*(.*?)\*\*/]: the shortest run of characters
    other than line terminators that is followed by two asterisks. *)
Fixpoint lazy_group (s : string) : option string :=
  match s with
  | EmptyString => None
  | String c s' =>
      if String.prefix "**" s then Some EmptyString
      else if is_line_terminator c then None
      else String c <$> lazy_group s'
  end.

(** [s.replace(/\*\*(.*?)\*\*/g, '<strong>$1</strong>')] *)
Fixpoint bold_go (skip : nat) (s : string) : string :=
  match s with
  | EmptyString => EmptyString
  | String c s' =>
      match skip with
      | S k => bold_go k s'
      | O =>
          match (if String.prefix "**" s
                 then lazy_group (String.substring 2 (String.length s) s)
                 else None) with
          | Some g =>
              "<strong>" +:+ g +:+ "</strong>"
                +:+ bold_go (String.length g + 3) s'
          | None => String c (bold_go 0 s')
          end
      end
  end.

Definition replace_bold (s : string) : string := bold_go 0 s.

(** *** Values

    The values the script handles are strings and what [response.json()]
    produces; [VUndefined] is what reading an absent property gives.
    Numbers are the integers JavaScript prints in full (below 10^21 in
    magnitude); the properties of an object are in the order JavaScript
    enumerates them. *)
#[local] Unset Elimination Schemes.
Inductive value : Type :=
| VUndefined
| VNull
| VBool (b : bool)
| VNum (n : Z)
| VStr (s : string)
| VArr (items : list value)
| VObj (props : list (string * value)).
#[local] Set Elimination Schemes.

(** What is thrown, or what a promise is rejected with. *)
Record exn : Type := mkExn { exn_name : string; exn_message : string }.

Definition TypeError (msg : string) : exn := mkExn "TypeError" msg.

(** [items.join(sep)] given the conversion [str] of an element:
    [undefined] and [null] elements give the empty string. *)
Definition join_with (str : value → string) (sep : string)
  : list value → string :=
  fix go (items : list value) : string :=
    let elt v := match v with
                 | VUndefined | VNull => EmptyString
                 | _ => str v
                 end in
    match items with
    | [] => EmptyString
    | [v] => elt v
    | v :: rest => elt v +:+ sep +:+ go rest
    end.

(** [String(v)], the conversion of template literals and of [+] with a
    string. *)
Fixpoint toString (v : value) : string :=
  match v with
  | VUndefined => "undefined"
  | VNull => "null"
  | VBool true => "true"
  | VBool false => "false"
  | VNum n => pretty n
  | VStr s => s
  | VArr items => join_with toString "," items
  | VObj _ => "[object Object]"
  end.

(** [items.join(sep)] *)
Definition join (sep : string) (items : list value) : string :=
  join_with toString sep items.

(** [Boolean(v)]: what [if (v)] and [v || w] test. *)
Definition truthy (v : value) : bool :=
  match v with
  | VUndefined | VNull => false
  | VBool b => b
  | VNum n => bool_decide (n ≠ 0%Z)
  | VStr s => bool_decide (s ≠ EmptyString)
  | VArr _ | VObj _ => true
  end.

Fixpoint assoc (k : string) (props : list (string * value)) : option value :=
  match props with
  | [] => None
  | (k', v) :: rest => if decide (k' = k) then Some v else assoc k rest
  end.

(** [v.k] for the property names the script reads ([success], [error],
    [response], [analysis], [tips]), none of which a string, number,
    boolean or array has: reading from [undefined] or [null] throws. *)
Definition get_prop (v : value) (k : string) : exn + value :=
  match v with
  | VUndefined =>
      inl (TypeError ("Cannot read properties of undefined (reading '"
                      +:+ k +:+ "')"))
  | VNull =>
      inl (TypeError ("Cannot read properties of null (reading '"
                      +:+ k +:+ "')"))
  | VObj props => inr (default VUndefined (assoc k props))
  | _ => inr VUndefined
  end.

Fixpoint chars_from (i : nat) (s : string) : list (string * value) :=
  match s with
  | EmptyString => []
  | String c s' =>
      (pretty i, VStr (String c EmptyString)) :: chars_from (S i) s'
  end.

(** [Object.entries(v)]: the own enumerable properties in order; for an
    array, its indices. *)
Definition entries (v : value) : exn + list (string * value) :=
  match v with
  | VUndefined | VNull =>
      inl (TypeError "Cannot convert undefined or null to object")
  | VBool _ | VNum _ => inr []
  | VStr s => inr (chars_from 0 s)
  | VArr items => inr (imap (λ i x, (pretty i, x)) items)
  | VObj props => inr props
  end.

End JS.

(** ** The page *)

Module Page.
Import JS.

(** A file, as the script looks at it: name, declared MIME type and
    content. *)
Record File : Type := mkFile {
  file_name : string;
  file_type : string;
  file_data : string
}.

(** A child of the transcript, as [addMessageToChat] builds it. *)
Record MessageDiv : Type := mkMessageDiv {
  className : string;
  innerHTML : string
}.

(** The elements the script fetches by id, each with the properties the
    script reads or writes.  All of them are taken to exist. *)
Record DOM : Type := mkDOM {
  (** [#uploadArea]: [style.background] and [style.display] *)
  uploadArea_background : string;
  uploadArea_display : string;
  (** [#imageInput]: the files it holds *)
  imageInput_files : list File;
  (** [#imagePreview]: [style.display] *)
  imagePreview_display : string;
  (** [#previewImg]: [src] *)
  previewImg_src : string;
  (** [#analyzeBtn]: [disabled] *)
  analyzeBtn_disabled : bool;
  (** [#location]: [value] *)
  location_value : string;
  (** [#analysisResults] and [#resultsContent] *)
  analysisResults_display : string;
  resultsContent_innerHTML : string;
  (** [#chatInput]: [value] *)
  chatInput_value : string;
  (** [#chatMessages]: its children, [scrollTop], and the height the
      browser lays a list of children out to ([scrollHeight]) *)
  chatMessages_children : list MessageDiv;
  chatMessages_scrollTop : Z;
  layout_scrollHeight : list MessageDiv → Z;
  (** [#cropSelect], [#seasonSelect]: [value] *)
  cropSelect_value : string;
  seasonSelect_value : string;
  (** [#tipsResults] and [#tipsContent] *)
  tipsResults_display : string;
  tipsContent_innerHTML : string;
  (** [#langToggle]: [innerHTML] *)
  langToggle_innerHTML : string;
  (** [#loadingOverlay]: [style.display] *)
  loadingOverlay_display : string
}.

Definition set_uploadArea_background (v : string) (d : DOM) : DOM :=
  {| uploadArea_background := v; uploadArea_display := uploadArea_display d;
     imageInput_files := imageInput_files d;
     imagePreview_display := imagePreview_display d;
     previewImg_src := previewImg_src d;
     analyzeBtn_disabled := analyzeBtn_disabled d;
     location_value := location_value d;
     analysisResults_display := analysisResults_display d;
     resultsContent_innerHTML := resultsContent_innerHTML d;
     chatInput_value := chatInput_value d;
     chatMessages_children := chatMessages_children d;
     chatMessages_scrollTop := chatMessages_scrollTop d;
     layout_scrollHeight := layout_scrollHeight d;
     cropSelect_value := cropSelect_value d;
     seasonSelect_value := seasonSelect_value d;
     tipsResults_display := tipsResults_display d;
     tipsContent_innerHTML := tipsContent_innerHTML d;
     langToggle_innerHTML := langToggle_innerHTML d;
     loadingOverlay_display := loadingOverlay_display d |}.

Definition set_uploadArea_display (v : string) (d : DOM) : DOM :=
  {| uploadArea_background := uploadArea_background d;
     uploadArea_display := v; imageInput_files := imageInput_files d;
     imagePreview_display := imagePreview_display d;
     previewImg_src := previewImg_src d;
     analyzeBtn_disabled := analyzeBtn_disabled d;
     location_value := location_value d;
     analysisResults_display := analysisResults_display d;
     resultsContent_innerHTML := resultsContent_innerHTML d;
     chatInput_value := chatInput_value d;
     chatMessages_children := chatMessages_children d;
     chatMessages_scrollTop := chatMessages_scrollTop d;
     layout_scrollHeight := layout_scrollHeight d;
     cropSelect_value := cropSelect_value d;
     seasonSelect_value := seasonSelect_value d;
     tipsResults_display := tipsResults_display d;
     tipsContent_innerHTML := tipsContent_innerHTML d;
     langToggle_innerHTML := langToggle_innerHTML d;
     loadingOverlay_display := loadingOverlay_display d |}.

Definition set_imageInput_files (v : list File) (d : DOM) : DOM :=
  {| uploadArea_background := uploadArea_background d;
     uploadArea_display := uploadArea_display d; imageInput_files := v;
     imagePreview_display := imagePreview_display d;
     previewImg_src := previewImg_src d;
     analyzeBtn_disabled := analyzeBtn_disabled d;
     location_value := location_value d;
     analysisResults_display := analysisResults_display d;
     resultsContent_innerHTML := resultsContent_innerHTML d;
     chatInput_value := chatInput_value d;
     chatMessages_children := chatMessages_children d;
     chatMessages_scrollTop := chatMessages_scrollTop d;
     layout_scrollHeight := layout_scrollHeight d;
     cropSelect_value := cropSelect_value d;
     seasonSelect_value := seasonSelect_value d;
     tipsResults_display := tipsResults_display d;
     tipsContent_innerHTML := tipsContent_innerHTML d;
     langToggle_innerHTML := langToggle_innerHTML d;
     loadingOverlay_display := loadingOverlay_display d |}.

Definition set_imagePreview_display (v : string) (d : DOM) : DOM :=
  {| uploadArea_background := uploadArea_background d;
     uploadArea_display := uploadArea_display d;
     imageInput_files := imageInput_files d; imagePreview_display := v;
     previewImg_src := previewImg_src d;
     analyzeBtn_disabled := analyzeBtn_disabled d;
     location_value := location_value d;
     analysisResults_display := analysisResults_display d;
     resultsContent_innerHTML := resultsContent_innerHTML d;
     chatInput_value := chatInput_value d;
     chatMessages_children := chatMessages_children d;
     chatMessages_scrollTop := chatMessages_scrollTop d;
     layout_scrollHeight := layout_scrollHeight d;
     cropSelect_value := cropSelect_value d;
     seasonSelect_value := seasonSelect_value d;
     tipsResults_display := tipsResults_display d;
     tipsContent_innerHTML := tipsContent_innerHTML d;
     langToggle_innerHTML := langToggle_innerHTML d;
     loadingOverlay_display := loadingOverlay_display d |}.

Definition set_previewImg_src (v : string) (d : DOM) : DOM :=
  {| uploadArea_background := uploadArea_background d;
     uploadArea_display := uploadArea_display d;
     imageInput_files := imageInput_files d;
     imagePreview_display := imagePreview_display d; previewImg_src := v;
     analyzeBtn_disabled := analyzeBtn_disabled d;
     location_value := location_value d;
     analysisResults_display := analysisResults_display d;
     resultsContent_innerHTML := resultsContent_innerHTML d;
     chatInput_value := chatInput_value d;
     chatMessages_children := chatMessages_children d;
     chatMessages_scrollTop := chatMessages_scrollTop d;
     layout_scrollHeight := layout_scrollHeight d;
     cropSelect_value := cropSelect_value d;
     seasonSelect_value := seasonSelect_value d;
     tipsResults_display := tipsResults_display d;
     tipsContent_innerHTML := tipsContent_innerHTML d;
     langToggle_innerHTML := langToggle_innerHTML d;
     loadingOverlay_display := loadingOverlay_display d |}.

Definition set_analyzeBtn_disabled (v : bool) (d : DOM) : DOM :=
  {| uploadArea_background := uploadArea_background d;
     uploadArea_display := uploadArea_display d;
     imageInput_files := imageInput_files d;
     imagePreview_display := imagePreview_display d;
     previewImg_src := previewImg_src d; analyzeBtn_disabled := v;
     location_value := location_value d;
     analysisResults_display := analysisResults_display d;
     resultsContent_innerHTML := resultsContent_innerHTML d;
     chatInput_value := chatInput_value d;
     chatMessages_children := chatMessages_children d;
     chatMessages_scrollTop := chatMessages_scrollTop d;
     layout_scrollHeight := layout_scrollHeight d;
     cropSelect_value := cropSelect_value d;
     seasonSelect_value := seasonSelect_value d;
     tipsResults_display := tipsResults_display d;
     tipsContent_innerHTML := tipsContent_innerHTML d;
     langToggle_innerHTML := langToggle_innerHTML d;
     loadingOverlay_display := loadingOverlay_display d |}.

Definition set_location_value (v : string) (d : DOM) : DOM :=
  {| uploadArea_background := uploadArea_background d;
     uploadArea_display := uploadArea_display d;
     imageInput_files := imageInput_files d;
     imagePreview_display := imagePreview_display d;
     previewImg_src := previewImg_src d;
     analyzeBtn_disabled := analyzeBtn_disabled d; location_value := v;
     analysisResults_display := analysisResults_display d;
     resultsContent_innerHTML := resultsContent_innerHTML d;
     chatInput_value := chatInput_value d;
     chatMessages_children := chatMessages_children d;
     chatMessages_scrollTop := chatMessages_scrollTop d;
     layout_scrollHeight := layout_scrollHeight d;
     cropSelect_value := cropSelect_value d;
     seasonSelect_value := seasonSelect_value d;
     tipsResults_display := tipsResults_display d;
     tipsContent_innerHTML := tipsContent_innerHTML d;
     langToggle_innerHTML := langToggle_innerHTML d;
     loadingOverlay_display := loadingOverlay_display d |}.

Definition set_analysisResults_display (v : string) (d : DOM) : DOM :=
  {| uploadArea_background := uploadArea_background d;
     uploadArea_display := uploadArea_display d;
     imageInput_files := imageInput_files d;
     imagePreview_display := imagePreview_display d;
     previewImg_src := previewImg_src d;
     analyzeBtn_disabled := analyzeBtn_disabled d;
     location_value := location_value d; analysisResults_display := v;
     resultsContent_innerHTML := resultsContent_innerHTML d;
     chatInput_value := chatInput_value d;
     chatMessages_children := chatMessages_children d;
     chatMessages_scrollTop := chatMessages_scrollTop d;
     layout_scrollHeight := layout_scrollHeight d;
     cropSelect_value := cropSelect_value d;
     seasonSelect_value := seasonSelect_value d;
     tipsResults_display := tipsResults_display d;
     tipsContent_innerHTML := tipsContent_innerHTML d;
     langToggle_innerHTML := langToggle_innerHTML d;
     loadingOverlay_display := loadingOverlay_display d |}.

Definition set_resultsContent_innerHTML (v : string) (d : DOM) : DOM :=
  {| uploadArea_background := uploadArea_background d;
     uploadArea_display := uploadArea_display d;
     imageInput_files := imageInput_files d;
     imagePreview_display := imagePreview_display d;
     previewImg_src := previewImg_src d;
     analyzeBtn_disabled := analyzeBtn_disabled d;
     location_value := location_value d;
     analysisResults_display := analysisResults_display d;
     resultsContent_innerHTML := v; chatInput_value := chatInput_value d;
     chatMessages_children := chatMessages_children d;
     chatMessages_scrollTop := chatMessages_scrollTop d;
     layout_scrollHeight := layout_scrollHeight d;
     cropSelect_value := cropSelect_value d;
     seasonSelect_value := seasonSelect_value d;
     tipsResults_display := tipsResults_display d;
     tipsContent_innerHTML := tipsContent_innerHTML d;
     langToggle_innerHTML := langToggle_innerHTML d;
     loadingOverlay_display := loadingOverlay_display d |}.

Definition set_chatInput_value (v : string) (d : DOM) : DOM :=
  {| uploadArea_background := uploadArea_background d;
     uploadArea_display := uploadArea_display d;
     imageInput_files := imageInput_files d;
     imagePreview_display := imagePreview_display d;
     previewImg_src := previewImg_src d;
     analyzeBtn_disabled := analyzeBtn_disabled d;
     location_value := location_value d;
     analysisResults_display := analysisResults_display d;
     resultsContent_innerHTML := resultsContent_innerHTML d;
     chatInput_value := v; chatMessages_children := chatMessages_children d;
     chatMessages_scrollTop := chatMessages_scrollTop d;
     layout_scrollHeight := layout_scrollHeight d;
     cropSelect_value := cropSelect_value d;
     seasonSelect_value := seasonSelect_value d;
     tipsResults_display := tipsResults_display d;
     tipsContent_innerHTML := tipsContent_innerHTML d;
     langToggle_innerHTML := langToggle_innerHTML d;
     loadingOverlay_display := loadingOverlay_display d |}.

Definition set_chatMessages_children (v : list MessageDiv) (d : DOM) : DOM :=
  {| uploadArea_background := uploadArea_background d;
     uploadArea_display := uploadArea_display d;
     imageInput_files := imageInput_files d;
     imagePreview_display := imagePreview_display d;
     previewImg_src := previewImg_src d;
     analyzeBtn_disabled := analyzeBtn_disabled d;
     location_value := location_value d;
     analysisResults_display := analysisResults_display d;
     resultsContent_innerHTML := resultsContent_innerHTML d;
     chatInput_value := chatInput_value d; chatMessages_children := v;
     chatMessages_scrollTop := chatMessages_scrollTop d;
     layout_scrollHeight := layout_scrollHeight d;
     cropSelect_value := cropSelect_value d;
     seasonSelect_value := seasonSelect_value d;
     tipsResults_display := tipsResults_display d;
     tipsContent_innerHTML := tipsContent_innerHTML d;
     langToggle_innerHTML := langToggle_innerHTML d;
     loadingOverlay_display := loadingOverlay_display d |}.

Definition set_chatMessages_scrollTop (v : Z) (d : DOM) : DOM :=
  {| uploadArea_background := uploadArea_background d;
     uploadArea_display := uploadArea_display d;
     imageInput_files := imageInput_files d;
     imagePreview_display := imagePreview_display d;
     previewImg_src := previewImg_src d;
     analyzeBtn_disabled := analyzeBtn_disabled d;
     location_value := location_value d;
     analysisResults_display := analysisResults_display d;
     resultsContent_innerHTML := resultsContent_innerHTML d;
     chatInput_value := chatInput_value d;
     chatMessages_children := chatMessages_children d;
     chatMessages_scrollTop := v;
     layout_scrollHeight := layout_scrollHeight d;
     cropSelect_value := cropSelect_value d;
     seasonSelect_value := seasonSelect_value d;
     tipsResults_display := tipsResults_display d;
     tipsContent_innerHTML := tipsContent_innerHTML d;
     langToggle_innerHTML := langToggle_innerHTML d;
     loadingOverlay_display := loadingOverlay_display d |}.

Definition set_cropSelect_value (v : string) (d : DOM) : DOM :=
  {| uploadArea_background := uploadArea_background d;
     uploadArea_display := uploadArea_display d;
     imageInput_files := imageInput_files d;
     imagePreview_display := imagePreview_display d;
     previewImg_src := previewImg_src d;
     analyzeBtn_disabled := analyzeBtn_disabled d;
     location_value := location_value d;
     analysisResults_display := analysisResults_display d;
     resultsContent_innerHTML := resultsContent_innerHTML d;
     chatInput_value := chatInput_value d;
     chatMessages_children := chatMessages_children d;
     chatMessages_scrollTop := chatMessages_scrollTop d;
     layout_scrollHeight := layout_scrollHeight d; cropSelect_value := v;
     seasonSelect_value := seasonSelect_value d;
     tipsResults_display := tipsResults_display d;
     tipsContent_innerHTML := tipsContent_innerHTML d;
     langToggle_innerHTML := langToggle_innerHTML d;
     loadingOverlay_display := loadingOverlay_display d |}.

Definition set_seasonSelect_value (v : string) (d : DOM) : DOM :=
  {| uploadArea_background := uploadArea_background d;
     uploadArea_display := uploadArea_display d;
     imageInput_files := imageInput_files d;
     imagePreview_display := imagePreview_display d;
     previewImg_src := previewImg_src d;
     analyzeBtn_disabled := analyzeBtn_disabled d;
     location_value := location_value d;
     analysisResults_display := analysisResults_display d;
     resultsContent_innerHTML := resultsContent_innerHTML d;
     chatInput_value := chatInput_value d;
     chatMessages_children := chatMessages_children d;
     chatMessages_scrollTop := chatMessages_scrollTop d;
     layout_scrollHeight := layout_scrollHeight d;
     cropSelect_value := cropSelect_value d; seasonSelect_value := v;
     tipsResults_display := tipsResults_display d;
     tipsContent_innerHTML := tipsContent_innerHTML d;
     langToggle_innerHTML := langToggle_innerHTML d;
     loadingOverlay_display := loadingOverlay_display d |}.

Definition set_tipsResults_display (v : string) (d : DOM) : DOM :=
  {| uploadArea_background := uploadArea_background d;
     uploadArea_display := uploadArea_display d;
     imageInput_files := imageInput_files d;
     imagePreview_display := imagePreview_display d;
     previewImg_src := previewImg_src d;
     analyzeBtn_disabled := analyzeBtn_disabled d;
     location_value := location_value d;
     analysisResults_display := analysisResults_display d;
     resultsContent_innerHTML := resultsContent_innerHTML d;
     chatInput_value := chatInput_value d;
     chatMessages_children := chatMessages_children d;
     chatMessages_scrollTop := chatMessages_scrollTop d;
     layout_scrollHeight := layout_scrollHeight d;
     cropSelect_value := cropSelect_value d;
     seasonSelect_value := seasonSelect_value d; tipsResults_display := v;
     tipsContent_innerHTML := tipsContent_innerHTML d;
     langToggle_innerHTML := langToggle_innerHTML d;
     loadingOverlay_display := loadingOverlay_display d |}.

Definition set_tipsContent_innerHTML (v : string) (d : DOM) : DOM :=
  {| uploadArea_background := uploadArea_background d;
     uploadArea_display := uploadArea_display d;
     imageInput_files := imageInput_files d;
     imagePreview_display := imagePreview_display d;
     previewImg_src := previewImg_src d;
     analyzeBtn_disabled := analyzeBtn_disabled d;
     location_value := location_value d;
     analysisResults_display := analysisResults_display d;
     resultsContent_innerHTML := resultsContent_innerHTML d;
     chatInput_value := chatInput_value d;
     chatMessages_children := chatMessages_children d;
     chatMessages_scrollTop := chatMessages_scrollTop d;
     layout_scrollHeight := layout_scrollHeight d;
     cropSelect_value := cropSelect_value d;
     seasonSelect_value := seasonSelect_value d;
     tipsResults_display := tipsResults_display d;
     tipsContent_innerHTML := v;
     langToggle_innerHTML := langToggle_innerHTML d;
     loadingOverlay_display := loadingOverlay_display d |}.

Definition set_langToggle_innerHTML (v : string) (d : DOM) : DOM :=
  {| uploadArea_background := uploadArea_background d;
     uploadArea_display := uploadArea_display d;
     imageInput_files := imageInput_files d;
     imagePreview_display := imagePreview_display d;
     previewImg_src := previewImg_src d;
     analyzeBtn_disabled := analyzeBtn_disabled d;
     location_value := location_value d;
     analysisResults_display := analysisResults_display d;
     resultsContent_innerHTML := resultsContent_innerHTML d;
     chatInput_value := chatInput_value d;
     chatMessages_children := chatMessages_children d;
     chatMessages_scrollTop := chatMessages_scrollTop d;
     layout_scrollHeight := layout_scrollHeight d;
     cropSelect_value := cropSelect_value d;
     seasonSelect_value := seasonSelect_value d;
     tipsResults_display := tipsResults_display d;
     tipsContent_innerHTML := tipsContent_innerHTML d;
     langToggle_innerHTML := v;
     loadingOverlay_display := loadingOverlay_display d |}.

Definition set_loadingOverlay_display (v : string) (d : DOM) : DOM :=
  {| uploadArea_background := uploadArea_background d;
     uploadArea_display := uploadArea_display d;
     imageInput_files := imageInput_files d;
     imagePreview_display := imagePreview_display d;
     previewImg_src := previewImg_src d;
     analyzeBtn_disabled := analyzeBtn_disabled d;
     location_value := location_value d;
     analysisResults_display := analysisResults_display d;
     resultsContent_innerHTML := resultsContent_innerHTML d;
     chatInput_value := chatInput_value d;
     chatMessages_children := chatMessages_children d;
     chatMessages_scrollTop := chatMessages_scrollTop d;
     layout_scrollHeight := layout_scrollHeight d;
     cropSelect_value := cropSelect_value d;
     seasonSelect_value := seasonSelect_value d;
     tipsResults_display := tipsResults_display d;
     tipsContent_innerHTML := tipsContent_innerHTML d;
     langToggle_innerHTML := langToggle_innerHTML d;
     loadingOverlay_display := v |}.

(** The two module-level variables and the page. *)
Record State : Type := mkState {
  currentLanguage : string;
  sessionId : string;
  dom : DOM
}.

Definition set_currentLanguage (v : string) (st : State) : State :=
  {| currentLanguage := v; sessionId := sessionId st; dom := dom st |}.

Definition set_dom (f : DOM → DOM) (st : State) : State :=
  {| currentLanguage := currentLanguage st; sessionId := sessionId st;
     dom := f (dom st) |}.

Definition API_BASE : string := "http://localhost:5000/api".

(** *** What a handler does besides changing the state *)

Inductive FormValue : Type :=
| FormFile (f : File)
| FormText (s : string).

(** The body of a request; [BodyJSON v] is [JSON.stringify(v)]. *)
Inductive Body : Type :=
| NoBody
| BodyJSON (v : value)
| BodyForm (fields : list (string * FormValue)).

Record Request : Type := mkRequest {
  req_url : string;
  req_method : string;
  req_headers : list (string * string);
  req_body : Body
}.

Inductive Effect : Type :=
| Alert (msg : string)                  (* [alert(msg)] *)
| ConsoleError (label : string) (e : exn) (* [console.error(label, e)] *)
| Fetch (r : Request)                   (* [fetch(url, options)] *)
| ReadAsDataURL (f : File)              (* [reader.readAsDataURL(f)] *)
| ScrollIntoView (id : string)          (* [el.scrollIntoView(...)] *)
| OpenPicker                            (* [imageInput.click()] *)
| PreventDefault                        (* [e.preventDefault()] *)
| OverlayDisplay (v : string).          (* a write to the overlay's
                                           [style.display] *)

(** *** Handlers as programs: state, trace of effects, exceptions *)

Record Run (A : Type) : Type := mkRun {
  final : State;
  trace : list Effect;
  result : exn + A
}.
Arguments mkRun {A} _ _ _.
Arguments final {A} _.
Arguments trace {A} _.
Arguments result {A} _.

Definition M (A : Type) : Type := State → Run A.

Definition ret {A} (a : A) : M A := λ st, mkRun st [] (inr a).

Definition throw {A} (e : exn) : M A := λ st, mkRun st [] (inl e).

Definition bind {A B} (m : M A) (k : A → M B) : M B := λ st,
  let r := m st in
  match result r with
  | inl e => mkRun (final r) (trace r) (inl e)
  | inr a =>
      let r' := k a (final r) in
      mkRun (final r') (trace r ++ trace r') (result r')
  end.

Definition gets {A} (f : State → A) : M A := λ st, mkRun st [] (inr (f st)).

Definition modify (f : State → State) : M unit :=
  λ st, mkRun (f st) [] (inr tt).

Definition emit (e : Effect) : M unit := λ st, mkRun st [e] (inr tt).

#[global] Instance M_ret : MRet M := @ret.
#[global] Instance M_bind : MBind M := λ A B k m, bind m k.

(** A pure computation that may throw. *)
Definition lift {A} (r : exn + A) : M A := λ st, mkRun st [] r.

(** [try { body } catch (error) { handler(error) } finally { fin }] *)
Definition try_catch_finally (body : M unit) (handler : exn → M unit)
    (fin : M unit) : M unit := λ st,
  let r := body st in
  let r1 := match result r with
            | inr _ => r
            | inl e =>
                let r' := handler e (final r) in
                mkRun (final r') (trace r ++ trace r') (result r')
            end in
  let r2 := fin (final r1) in
  mkRun (final r2) (trace r1 ++ trace r2)
        (match result r2 with
         | inl e => inl e
         | inr _ => result r1
         end).

End Page.

(** ** The handlers *)

Module App.
Import JS Page.

(** A quoted attribute, as in [class="tips-text"]. *)
Definition attr (name v : string) : string :=
  name +:+ "=" +:+ dq +:+ v +:+ dq.

Definition indent (n : nat) : string :=
  nl +:+ String.concat EmptyString (replicate n " ").

(** *** Utility functions *)

Definition showLoading (show : bool) : M unit :=
  let v := if show then "flex" else "none" in
  modify (set_dom (set_loadingOverlay_display v));;
  emit (OverlayDisplay v).

(** [generateSessionId()], given what [Date.now()] and
    [Math.random().toString(36)] return. *)
Definition generateSessionId (now : Z) (random36 : string) : string :=
  "session_" +:+ toString (VNum now) +:+ "_" +:+ substr 2 9 random36.

(** *** Image upload *)

(** What a handler leaves for the event loop to resume. *)
Inductive Pending : Type :=
| AwaitReader     (* [reader.onload] of [handleImageSelect] *)
| AwaitAnalyze    (* the rest of [analyzeCrop] *)
| AwaitChat       (* the rest of [sendMessage] *)
| AwaitTips.      (* the rest of [getFarmingTips] *)

Definition handleImageSelect (file : File) : M (option Pending) :=
  emit (ReadAsDataURL file);;
  mret (Some AwaitReader).

(** [reader.onload], with [e.target.result]. *)
Definition reader_onload (dataURL : string) : M unit :=
  modify (set_dom (set_previewImg_src dataURL));;
  modify (set_dom (set_uploadArea_display "none"));;
  modify (set_dom (set_imagePreview_display "block"));;
  modify (set_dom (set_analyzeBtn_disabled false)).

Definition uploadArea_click : M unit := emit OpenPicker.

Definition uploadArea_dragover : M unit :=
  emit PreventDefault;;
  modify (set_dom (set_uploadArea_background "#d5f4e6")).

Definition uploadArea_dragleave : M unit :=
  modify (set_dom (set_uploadArea_background "#ecf0f1")).

(** The [drop] listener, with [e.dataTransfer.files]. *)
Definition uploadArea_drop (files : list File) : M (option Pending) :=
  emit PreventDefault;;
  match files with
  | file :: _ =>
      if startsWith "image/" (file_type file) then handleImageSelect file
      else mret None
  | [] => mret None
  end.

(** The [change] listener of the file input; [e.target.files] are the
    files the input holds. *)
Definition imageInput_change : M (option Pending) :=
  files ← gets (λ st, imageInput_files (dom st));
  match files with
  | file :: _ => handleImageSelect file
  | [] => mret None
  end.

Definition removeImage_click : M unit :=
  modify (set_dom (set_imageInput_files []));;
  modify (set_dom (set_imagePreview_display "none"));;
  modify (set_dom (set_uploadArea_display "block"));;
  modify (set_dom (set_analyzeBtn_disabled true)).

(** *** Awaited responses

    What [await fetch(...)] followed by [await response.json()] ends in:
    one of the two promises is rejected, or the body parses to [data]. *)
Inductive Settled : Type :=
| Rejected (e : exn)
| Fulfilled (data : value).

Definition await (r : Settled) : M value :=
  match r with
  | Rejected e => throw e
  | Fulfilled data => mret data
  end.

(** *** Crop analysis *)

Definition formatAnalysis (analysisData : value) : exn + string :=
  match get_prop analysisData "analysis" with
  | inl e => inl e
  | inr a =>
      let analysis := if truthy a then a else analysisData in
      match analysis with
      | VStr text =>
          let formatted :=
            replaceAll nl "<br>"
              (replaceAll (nl +:+ nl) "</p><p>" (replace_bold text)) in
          inr ("<div " +:+ attr "class" "analysis-text" +:+ "><p>"
               +:+ formatted +:+ "</p></div>")
      | _ => inl (TypeError "analysis.replace is not a function")
      end
  end.

Definition analyze_request (file : File) (location language : string)
  : Request :=
  {| req_url := API_BASE +:+ "/analyze-crop";
     req_method := "POST";
     req_headers := [];
     req_body := BodyForm [("image", FormFile file);
                           ("location", FormText location);
                           ("language", FormText language)] |}.

(** [analyzeCrop] up to [await fetch(...)]. *)
Definition analyzeCrop : M (option Pending) :=
  files ← gets (λ st, imageInput_files (dom st));
  value ← gets (λ st, location_value (dom st));
  let location := if decide (value = EmptyString) then "Kenya" else value in
  match files with
  | [] => emit (Alert "Please select an image first");; mret None
  | file :: _ =>
      showLoading true;;
      language ← gets currentLanguage;
      emit (Fetch (analyze_request file location language));;
      mret (Some AwaitAnalyze)
  end.

(** [analyzeCrop] from the settled response on. *)
Definition analyzeCrop_resume (r : Settled) : M unit :=
  try_catch_finally
    (data ← await r;
     success ← lift (get_prop data "success");
     if truthy success then
       analysis ← lift (get_prop data "analysis");
       html ← lift (formatAnalysis analysis);
       modify (set_dom (set_resultsContent_innerHTML html));;
       modify (set_dom (set_analysisResults_display "block"));;
       emit (ScrollIntoView "analysisResults")
     else
       error ← lift (get_prop data "error");
       emit (Alert ("Analysis failed: " +:+ toString error)))
    (λ error,
       emit (ConsoleError "Error:" error);;
       emit (Alert "Failed to analyze image. Please try again."))
    (showLoading false).

(** *** Chat *)

Definition message_icon (sender : string) : string :=
  if decide (sender = "bot")
  then "<i " +:+ attr "class" "fas fa-robot" +:+ "></i>"
  else "<i " +:+ attr "class" "fas fa-user" +:+ "></i>".

(** The template of [messageDiv.innerHTML], before and after
    [${message}]. *)
Definition message_open (sender : string) : string :=
  indent 8 +:+ message_icon sender
  +:+ indent 8 +:+ "<div " +:+ attr "class" "message-content" +:+ ">"
  +:+ indent 12 +:+ "<p>".

Definition message_close : string :=
  "</p>" +:+ indent 8 +:+ "</div>" +:+ indent 4.

Definition addMessageToChat (message : value) (sender : string) : M unit :=
  let messageDiv :=
    {| className := "message " +:+ sender +:+ "-message";
       innerHTML := message_open sender +:+ toString message
                    +:+ message_close |} in
  modify (set_dom (λ d, set_chatMessages_children
                          (chatMessages_children d ++ [messageDiv]) d));;
  modify (set_dom (λ d, set_chatMessages_scrollTop
                          (layout_scrollHeight d (chatMessages_children d))
                          d)).

Definition chat_error_reply : string :=
  "Sorry, I encountered an error. Please try again.".

Definition chat_connection_reply : string :=
  "Connection error. Please check your internet and try again.".

Definition chat_request (message session language : string) : Request :=
  {| req_url := API_BASE +:+ "/chat";
     req_method := "POST";
     req_headers := [("Content-Type", "application/json")];
     req_body := BodyJSON (VObj [("message", VStr message);
                                 ("session_id", VStr session);
                                 ("language", VStr language)]) |}.

(** [sendMessage] up to [await fetch(...)]. *)
Definition sendMessage : M (option Pending) :=
  value ← gets (λ st, chatInput_value (dom st));
  let message := trim value in
  if decide (message = EmptyString) then mret None
  else
    addMessageToChat (VStr message) "user";;
    modify (set_dom (set_chatInput_value EmptyString));;
    showLoading true;;
    session ← gets sessionId;
    language ← gets currentLanguage;
    emit (Fetch (chat_request message session language));;
    mret (Some AwaitChat).

(** [sendMessage] from the settled response on. *)
Definition sendMessage_resume (r : Settled) : M unit :=
  try_catch_finally
    (data ← await r;
     success ← lift (get_prop data "success");
     if truthy success then
       response ← lift (get_prop data "response");
       addMessageToChat response "bot"
     else
       addMessageToChat (VStr chat_error_reply) "bot")
    (λ error,
       emit (ConsoleError "Error:" error);;
       addMessageToChat (VStr chat_connection_reply) "bot")
    (showLoading false).

(** The [keypress] listener of the chat input, with [e.key]. *)
Definition chatInput_keypress (key : string) : M (option Pending) :=
  if decide (key = "Enter") then sendMessage else mret None.

(** *** Farming tips *)

Definition tip_section (entry : string * value) : string :=
  let '(key, value) := entry in
  indent 12 +:+ "<div " +:+ attr "class" "tip-section" +:+ ">"
  +:+ indent 16 +:+ "<h4>" +:+ toUpperCase (replaceAll "_" " " key)
  +:+ "</h4>"
  +:+ indent 16 +:+ "<p>"
  +:+ match value with
      | VArr items => join "<br>" items
      | _ => toString value
      end
  +:+ "</p>"
  +:+ indent 12 +:+ "</div>" +:+ indent 8.

Definition formatTips (tips : value) : exn + string :=
  match tips with
  | VStr text =>
      inr ("<div " +:+ attr "class" "tips-text" +:+ ">" +:+ text
           +:+ "</div>")
  | _ =>
      match entries tips with
      | inl e => inl e
      | inr es =>
          let html :=
            foldl (λ html entry, html +:+ tip_section entry)
                  ("<div " +:+ attr "class" "structured-tips" +:+ ">") es in
          inr (html +:+ "</div>")
      end
  end.

Definition tips_request (crop season language : string) : Request :=
  {| req_url := API_BASE +:+ "/farming-tips?crop=" +:+ crop
                +:+ "&season=" +:+ season +:+ "&language=" +:+ language;
     req_method := "GET";
     req_headers := [];
     req_body := NoBody |}.

(** [getFarmingTips] up to [await fetch(...)]. *)
Definition getFarmingTips : M (option Pending) :=
  crop ← gets (λ st, cropSelect_value (dom st));
  season ← gets (λ st, seasonSelect_value (dom st));
  showLoading true;;
  language ← gets currentLanguage;
  emit (Fetch (tips_request crop season language));;
  mret (Some AwaitTips).

(** [getFarmingTips] from the settled response on. *)
Definition getFarmingTips_resume (r : Settled) : M unit :=
  try_catch_finally
    (data ← await r;
     success ← lift (get_prop data "success");
     if truthy success then
       tips ← lift (get_prop data "tips");
       html ← lift (formatTips tips);
       modify (set_dom (set_tipsContent_innerHTML html));;
       modify (set_dom (set_tipsResults_display "block"))
     else
       error ← lift (get_prop data "error");
       emit (Alert ("Failed to get tips: " +:+ toString error)))
    (λ error,
       emit (ConsoleError "Error:" error);;
       emit (Alert "Failed to fetch farming tips."))
    (showLoading false).

(** *** Language toggle *)

Definition language_label (language : string) : string :=
  if decide (language = "en") then "English" else "Kiswahili".

Definition langToggle_click : M unit :=
  language ← gets currentLanguage;
  modify (set_currentLanguage
            (if decide (language = "en") then "sw" else "en"));;
  language ← gets currentLanguage;
  modify (set_dom (set_langToggle_innerHTML
                     ("<i " +:+ attr "class" "fas fa-globe" +:+ "></i> "
                      +:+ language_label language))).

End App.

(** ** The event loop *)

Module Loop.
Import JS Page App.

(** What happens to the page: the user acts on an element that has a
    listener, or edits a field, or the browser completes something a
    handler started (the [k]-th suspended computation). *)
Inductive Event : Type :=
| UploadAreaClick
| DragOver
| DragLeave
| Drop (files : list File)
| FilesChosen (files : list File)   (* the picker closes on [files] *)
| RemoveClick
| AnalyzeClick
| LocationTyped (text : string)
| ChatTyped (text : string)
| SendClick
| KeyPress (key : string)
| CropSelected (crop : string)
| SeasonSelected (season : string)
| GetTipsClick
| LangToggleClick
| ReaderLoaded (k : nat) (dataURL : string)
| ResponseSettled (k : nat) (r : Settled).

(** The state, the suspended computations in the order they were
    started ([None] once resumed), and everything done to the outside so
    far. *)
Record World : Type := mkWorld {
  state : State;
  pending : list (option Pending);
  log : list Effect
}.

(** Running a listener that may suspend. *)
Definition dispatch (h : M (option Pending)) (w : World) : World :=
  let r := h (state w) in
  {| state := final r;
     pending := pending w ++ match result r with
                             | inr (Some k) => [Some k]
                             | _ => []
                             end;
     log := log w ++ trace r |}.

Definition dispatch_unit (h : M unit) (w : World) : World :=
  dispatch (h;; mret None) w.

(** Resuming the [k]-th suspended computation with [h]. *)
Definition resume (k : nat) (h : M unit) (w : World) : World :=
  let w' := dispatch_unit h w in
  {| state := state w'; pending := <[k := None]> (pending w');
     log := log w' |}.

Definition edit (f : DOM → DOM) (w : World) : World :=
  {| state := set_dom f (state w); pending := pending w; log := log w |}.

(** The listeners as [initializeImageUpload], [initializeChat],
    [initializeTips] and [initializeLanguageToggle] register them. *)
Definition step (ev : Event) (w : World) : World :=
  match ev with
  | UploadAreaClick => dispatch_unit uploadArea_click w
  | DragOver => dispatch_unit uploadArea_dragover w
  | DragLeave => dispatch_unit uploadArea_dragleave w
  | Drop files => dispatch (uploadArea_drop files) w
  | FilesChosen files =>
      dispatch imageInput_change (edit (set_imageInput_files files) w)
  | RemoveClick => dispatch_unit removeImage_click w
  | AnalyzeClick => dispatch analyzeCrop w
  | LocationTyped text => edit (set_location_value text) w
  | ChatTyped text => edit (set_chatInput_value text) w
  | SendClick => dispatch sendMessage w
  | KeyPress key => dispatch (chatInput_keypress key) w
  | CropSelected crop => edit (set_cropSelect_value crop) w
  | SeasonSelected season => edit (set_seasonSelect_value season) w
  | GetTipsClick => dispatch getFarmingTips w
  | LangToggleClick => dispatch_unit langToggle_click w
  | ReaderLoaded k dataURL =>
      match pending w !! k with
      | Some (Some AwaitReader) => resume k (reader_onload dataURL) w
      | _ => w
      end
  | ResponseSettled k r =>
      match pending w !! k with
      | Some (Some AwaitAnalyze) => resume k (analyzeCrop_resume r) w
      | Some (Some AwaitChat) => resume k (sendMessage_resume r) w
      | Some (Some AwaitTips) => resume k (getFarmingTips_resume r) w
      | _ => w
      end
  end.

Definition run (evs : list Event) (w : World) : World :=
  foldl (λ w ev, step ev w) w evs.

(** Page load: the module-level variables are initialised, the page is
    as the markup [html] has it. *)
Definition init (now : Z) (random36 : string) (html : DOM) : World :=
  {| state := {| currentLanguage := "en";
                 sessionId := generateSessionId now random36;
                 dom := html |};
     pending := [];
     log := [] |}.

End Loop.

(** ** What the properties below observe *)

Module Obs.
Import JS Page App Loop.

(** The writes to the overlay's [style.display], in order. *)
Definition overlay_writes (t : list Effect) : list string :=
  omap (λ e, match e with OverlayDisplay v => Some v | _ => None end) t.

(** The requests sent. *)
Definition fetches (t : list Effect) : list Request :=
  omap (λ e, match e with Fetch r => Some r | _ => None end) t.

(** The alerts shown. *)
Definition alerts (t : list Effect) : list string :=
  omap (λ e, match e with Alert msg => Some msg | _ => None end) t.

(** The three flows that call the network, each as the handler that
    starts it and the handler that resumes it. *)
Inductive Flow : Type := ImageAnalysis | Chat | Tips.

Definition flow_start (f : Flow) : M (option Pending) :=
  match f with
  | ImageAnalysis => analyzeCrop
  | Chat => sendMessage
  | Tips => getFarmingTips
  end.

Definition flow_resume (f : Flow) (r : Settled) : M unit :=
  match f with
  | ImageAnalysis => analyzeCrop_resume r
  | Chat => sendMessage_resume r
  | Tips => getFarmingTips_resume r
  end.

(** Kinds of effects. *)
Definition is_overlay_write (e : Effect) : bool :=
  match e with OverlayDisplay _ => true | _ => false end.

Definition is_fetch (e : Effect) : bool :=
  match e with Fetch _ => true | _ => false end.

Definition is_alert (e : Effect) : bool :=
  match e with Alert _ => true | _ => false end.

(** A program none of whose effects is of kind [P], one that never
    throws, and one whose final state is always [R]-related to the state
    it started in. *)
Definition never (P : Effect → bool) {A} (m : M A) : Prop :=
  ∀ st, Forall (λ e, P e = false) (trace (m st)).

Definition total {A} (m : M A) : Prop :=
  ∀ st, ∃ a, result (m st) = inr a.

Definition respects (R : relation State) {A} (m : M A) : Prop :=
  ∀ st, R st (final (m st)).

Definition transcript (st : State) : list MessageDiv :=
  chatMessages_children (dom st).

(** The language flag holds one of its two values. *)
Definition two_valued (st : State) : Prop :=
  currentLanguage st = "en" ∨ currentLanguage st = "sw".

(** What relates a state to every later one: the session identifier is
    the same, the transcript has only grown, and the language flag is
    still one of its two values if it was. *)
Definition evolves (st st' : State) : Prop :=
  sessionId st' = sessionId st
  ∧ (∃ more, transcript st' = transcript st ++ more)
  ∧ (two_valued st → two_valued st').

(** A request of one of the three flows, with [language] in its
    language field. *)
Definition carries_language (language : string) (req : Request) : Prop :=
  (∃ file location, req = analyze_request file location language)
  ∨ (∃ message session, req = chat_request message session language)
  ∨ (∃ crop season, req = tips_request crop season language).

(** A request to another endpoint than [/chat], or a chat request with
    [session] in its [session_id] field. *)
Definition carries_session (session : string) (req : Request) : Prop :=
  req_url req = API_BASE +:+ "/chat" →
  ∃ message language, req = chat_request message session language.

(** How the chat flow can fail, with the reply shown for it: a rejected
    promise, a payload from which [success] cannot be read, a payload
    whose [success] is not truthy. *)
Inductive ChatFailure : Settled → string → Prop :=
| failure_rejected e :
    ChatFailure (Rejected e) chat_connection_reply
| failure_unreadable data e :
    get_prop data "success" = inl e →
    ChatFailure (Fulfilled data) chat_connection_reply
| failure_payload data success :
    get_prop data "success" = inr success → truthy success = false →
    ChatFailure (Fulfilled data) chat_error_reply.

(** The markup of one section of structured tips. *)
Definition section_html (heading text : string) : string :=
  indent 12 +:+ "<div " +:+ attr "class" "tip-section" +:+ ">"
  +:+ indent 16 +:+ "<h4>" +:+ heading +:+ "</h4>"
  +:+ indent 16 +:+ "<p>" +:+ text +:+ "</p>"
  +:+ indent 12 +:+ "</div>" +:+ indent 8.

(** A page as the markup may have it: the upload prompt shown, no
    preview, the analyze button disabled, the overlay hidden. *)
Definition sample_page : DOM :=
  {| uploadArea_background := "#ecf0f1"; uploadArea_display := "block";
     imageInput_files := []; imagePreview_display := "none";
     previewImg_src := EmptyString; analyzeBtn_disabled := true;
     location_value := EmptyString; analysisResults_display := "none";
     resultsContent_innerHTML := EmptyString;
     chatInput_value := EmptyString; chatMessages_children := [];
     chatMessages_scrollTop := 0;
     layout_scrollHeight := λ children, (40 * Z.of_nat (length children))%Z;
     cropSelect_value := "maize"; seasonSelect_value := "rainy";
     tipsResults_display := "none"; tipsContent_innerHTML := EmptyString;
     langToggle_innerHTML := "<i " +:+ attr "class" "fas fa-globe"
                             +:+ "></i> English";
     loadingOverlay_display := "none" |}.

(** A string of white space only (the empty string is one). *)
Fixpoint only_white_space (s : string) : bool :=
  match s with
  | EmptyString => true
  | String c s' => is_white_space c && only_white_space s'
  end.

(** A string changed character by character. *)
Fixpoint map_chars (f : ascii → ascii) (s : string) : string :=
  match s with
  | EmptyString => EmptyString
  | String c s' => String (f c) (map_chars f s')
  end.

(** A key as a heading, character by character: an underscore becomes
    a space, a lower-case letter its capital. *)
Definition heading_char (c : ascii) : ascii :=
  upper_char (if decide (c = "_"%char) then " "%char else c).

(** The child [addMessageToChat] appends, and the state it leaves. *)
Definition entry_of (message : value) (sender : string) : MessageDiv :=
  {| className := "message " +:+ sender +:+ "-message";
     innerHTML := message_open sender +:+ toString message
                  +:+ message_close |}.

Definition with_message (entry : MessageDiv) (st : State) : State :=
  set_dom (λ d, set_chatMessages_scrollTop
                  (layout_scrollHeight d (chatMessages_children d)) d)
    (set_dom (λ d, set_chatMessages_children
                     (chatMessages_children d ++ [entry]) d) st).

(** The requests of a program carry the session identifier of the state
    it starts in. *)
Definition sends_session {A} (m : M A) : Prop :=
  ∀ st, Forall (carries_session (sessionId st)) (fetches (trace (m st))).

(** What a step of the event loop is sound for: the state evolves, the
    log only grows, and the requests it adds carry the session
    identifier. *)
Definition sound_step (w w' : World) : Prop :=
  evolves (state w) (state w')
  ∧ ∃ t, log w' = log w ++ t
         ∧ Forall (carries_session (sessionId (state w))) (fetches t).

(** A session on the sample page. *)
Definition sample_state : State :=
  {| currentLanguage := "en";
     sessionId := generateSessionId 1700000000000 "0.4fzyo82mvyr";
     dom := sample_page |}.

Definition sample_world : World :=
  init 1700000000000 "0.4fzyo82mvyr" sample_page.

End Obs.

(** ** Further vocabulary: the rest of the script *)

Module ObsMore.
Import JS Page App Loop Obs.

(** Whether character [c] occurs in [s]. *)
Fixpoint has_char (c : ascii) (s : string) : bool :=
  match s with
  | EmptyString => false
  | String c' s' => bool_decide (c' = c) || has_char c s'
  end.

(** Whether a line terminator occurs in [s]. *)
Fixpoint has_line_terminator (s : string) : bool :=
  match s with
  | EmptyString => false
  | String c s' => is_line_terminator c || has_line_terminator s'
  end.

(** The text [formatAnalysis] formats, when there is one: the payload
    itself when it is a string, its [analysis] property when the payload
    is an object and that property is a string other than the empty
    one. *)
Definition analysis_text (analysisData : value) : option string :=
  match analysisData with
  | VStr text => Some text
  | VObj props =>
      match assoc "analysis" props with
      | Some (VStr text) =>
          if decide (text = EmptyString) then None else Some text
      | _ => None
      end
  | _ => None
  end.



(** A child of the transcript tagged as the user's or as the bot's. *)
Definition tagged (entry : MessageDiv) : Prop :=
  className entry = "message user-message"
  ∨ className entry = "message bot-message".

(** The transcript has grown by tagged children only. *)
Definition grows_tagged (st st' : State) : Prop :=
  ∃ more, transcript st' = transcript st ++ more ∧ Forall tagged more.

(** The overlay is still shown if it was, and the upload area still
    highlighted if it was. *)
Definition keeps_shown (st st' : State) : Prop :=
  loadingOverlay_display (dom st) = "flex" →
  loadingOverlay_display (dom st') = "flex".

Definition keeps_highlight (st st' : State) : Prop :=
  uploadArea_background (dom st) = "#d5f4e6" →
  uploadArea_background (dom st') = "#d5f4e6".

(** An event other than the settling of a response. *)
Definition not_settling (ev : Event) : bool :=
  match ev with ResponseSettled _ _ => false | _ => true end.

(** A page with a tab button that names no element. *)
Definition broken_tabs : Tabs.Document :=
  [ Tabs.mkElement EmptyString ["tab-btn"] (Some "missing");
    Tabs.mkElement EmptyString ["tab-btn"; "active"] (Some "chat");
    Tabs.mkElement "chat" ["tab-pane"; "active"] None;
    Tabs.mkElement "banner" ["active"] None ].

(** An event other than the pointer leaving the upload area. *)
Definition not_dragleave (ev : Event) : bool :=
  match ev with DragLeave => false | _ => true end.

(** What the bot's child says for a settled chat request. *)
Definition reply_of (r : Settled) : value :=
  match r with
  | Rejected _ => VStr chat_connection_reply
  | Fulfilled data =>
      match get_prop data "success" with
      | inl _ => VStr chat_connection_reply
      | inr success =>
          if truthy success
          then match get_prop data "response" with
               | inr response => response
               | inl _ => VUndefined
               end
          else VStr chat_error_reply
      end
  end.


Definition sample_image : File :=
  {| file_name := "leaf.png"; file_type := "image/png";
     file_data := "..." |}.

End ObsMore.

(** * Properties of the tab controller *)

Module TabsTheory.
Import Tabs.

(** ** Class lists *)

Lemma contains_spec tok e :
  classList_contains tok e = true ↔ tok ∈ classList e.
Proof. unfold classList_contains. by rewrite bool_decide_eq_true. Qed.

Lemma contains_remove tok e :
  classList_contains tok (classList_remove tok e) = false.
Proof.
  apply bool_decide_eq_false. simpl. rewrite list_elem_of_filter. tauto.
Qed.

Lemma contains_add tok e :
  classList_contains tok (classList_add tok e) = true.
Proof.
  unfold classList_add. destruct (classList_contains tok e) eqn:E; [done|].
  apply contains_spec. simpl. rewrite elem_of_app, list_elem_of_singleton.
  by right.
Qed.

Lemma remove_remove tok e :
  classList_remove tok (classList_remove tok e) = classList_remove tok e.
Proof.
  unfold classList_remove, set_classList. simpl. f_equal.
  induction (classList e) as [|c l IH]; [done|].
  rewrite filter_cons. case_decide; [|done].
  rewrite filter_cons, decide_True by done. by rewrite IH.
Qed.

Lemma remove_add tok e :
  classList_remove tok (classList_add tok e) = classList_remove tok e.
Proof.
  unfold classList_add. destruct (classList_contains tok e); [done|].
  unfold classList_remove, set_classList. simpl. f_equal.
  rewrite filter_app, filter_cons, decide_False by tauto.
  by rewrite filter_nil, app_nil_r.
Qed.

Lemma add_add tok e :
  classList_add tok (classList_add tok e) = classList_add tok e.
Proof.
  unfold classList_add at 1. by rewrite contains_add.
Qed.

Lemma add_remove_other_contains tok tok' e :
  tok' ≠ tok →
  classList_contains tok' (classList_add tok e) = classList_contains tok' e.
Proof.
  intros Hne. unfold classList_add.
  destruct (classList_contains tok e); [done|].
  unfold classList_contains. apply bool_decide_ext. simpl.
  rewrite elem_of_app, list_elem_of_singleton.
  split; [intros [H|H]; [done|by destruct Hne]|by left].
Qed.

Lemma remove_other_contains tok tok' e :
  tok' ≠ tok →
  classList_contains tok' (classList_remove tok e)
  = classList_contains tok' e.
Proof.
  intros Hne. unfold classList_contains. apply bool_decide_ext. simpl.
  rewrite list_elem_of_filter. tauto.
Qed.

(** ** What a listener never changes *)

#[local] Instance same_frame_el_refl : Reflexive same_frame_el.
Proof. by intros e. Qed.

#[local] Instance same_frame_el_trans : Transitive same_frame_el.
Proof.
  intros e1 e2 e3 (Hi12&Ht12&H12) (Hi23&Ht23&H23). split; [|split].
  - by rewrite Hi12.
  - by rewrite Ht12.
  - intros tok Hne. by rewrite H12, H23.
Qed.

Lemma same_frame_refl d : same_frame d d.
Proof.
  apply Forall2_same_length_lookup. split; [done|].
  intros i e1 e2 H1 H2. rewrite H1 in H2. by injection H2 as <-.
Qed.

Lemma same_frame_trans d1 d2 d3 :
  same_frame d1 d2 → same_frame d2 d3 → same_frame d1 d3.
Proof. unfold same_frame. intros H12 H23. by etrans. Qed.

Lemma same_frame_remove e : same_frame_el (classList_remove "active" e) e.
Proof.
  repeat split; [done..|]. intros tok Hne. by apply remove_other_contains.
Qed.

Lemma same_frame_add e : same_frame_el (classList_add "active" e) e.
Proof.
  repeat split.
  - unfold classList_add. by destruct (classList_contains _ e).
  - unfold classList_add. by destruct (classList_contains _ e).
  - intros tok Hne. by apply add_remove_other_contains.
Qed.

Lemma same_frame_alter f i d :
  (∀ e, same_frame_el (f e) e) → same_frame (alter f i d) d.
Proof.
  intros Hf. apply Forall2_same_length_lookup. split.
  - by rewrite length_alter.
  - intros j e1 e2 H1 H2. destruct (decide (i = j)) as [->|Hne].
    + rewrite list_lookup_alter_eq, H2 in H1. simpl in H1.
      injection H1 as <-. apply Hf.
    + rewrite list_lookup_alter_ne, H2 in H1 by done. by injection H1 as <-.
Qed.

Lemma same_frame_length d1 d2 : same_frame d1 d2 → length d1 = length d2.
Proof. apply Forall2_length. Qed.

Lemma same_frame_lookup d1 d2 i e1 :
  same_frame d1 d2 → d1 !! i = Some e1 →
  ∃ e2, d2 !! i = Some e2 ∧ same_frame_el e1 e2.
Proof. intros H H1. by apply (Forall2_lookup_l _ _ _ _ _ H H1). Qed.

(** ** Queries *)

Lemma elem_of_querySelectorAll cls (doc : Document) i :
  i ∈ querySelectorAll cls doc
  ↔ from_option (classList_contains cls) false (doc !! i) = true.
Proof.
  unfold querySelectorAll. rewrite list_elem_of_filter, elem_of_seq.
  split; [tauto|]. intros H. split; [done|].
  destruct (doc !! i) eqn:E; [|done].
  apply lookup_lt_Some in E. lia.
Qed.

Lemma NoDup_querySelectorAll cls (doc : Document) :
  NoDup (querySelectorAll cls doc).
Proof. apply NoDup_filter, NoDup_seq. Qed.

Lemma same_frame_contains (d1 d2 : Document) tok i :
  same_frame d1 d2 → tok ≠ "active" →
  from_option (classList_contains tok) false (d1 !! i)
  = from_option (classList_contains tok) false (d2 !! i).
Proof.
  intros H Hne. destruct (d1 !! i) as [e1|] eqn:E1.
  - destruct (same_frame_lookup _ _ _ _ H E1) as (e2 & -> & _ & _ & Hc).
    simpl. by apply Hc.
  - apply lookup_ge_None in E1. rewrite (same_frame_length _ _ H) in E1.
    apply lookup_ge_None in E1. by rewrite E1.
Qed.

Lemma querySelectorAll_same_frame cls (d1 d2 : Document) :
  same_frame d1 d2 → cls ≠ "active" →
  querySelectorAll cls d1 = querySelectorAll cls d2.
Proof.
  intros H Hne. unfold querySelectorAll.
  rewrite (same_frame_length _ _ H). apply list_filter_iff. intros i.
  by rewrite (same_frame_contains _ _ _ _ H Hne).
Qed.

Lemma getElementById_same_frame id (d1 d2 : Document) :
  same_frame d1 d2 → getElementById id d1 = getElementById id d2.
Proof.
  intros H. unfold getElementById. case_decide; [done|].
  induction H as [|e1 e2 l1 l2 (Hid & _) _ IH]; [done|]. simpl.
  rewrite Hid. case_decide; [done|].
  destruct (list_find _ l1) as [[]|], (list_find _ l2) as [[]|];
    simpl in *; congruence.
Qed.

Lemma target_of_same_frame (d1 d2 : Document) b :
  same_frame d1 d2 → target_of d1 b = target_of d2 b.
Proof.
  intros H. unfold target_of. rewrite (getElementById_same_frame _ _ _ H).
  f_equal. f_equal. destruct (d1 !! b) as [e1|] eqn:E1.
  - destruct (same_frame_lookup _ _ _ _ H E1) as (e2 & E2 & _ & Ht & _).
    rewrite E2. simpl. by rewrite Ht.
  - apply lookup_ge_None in E1. rewrite (same_frame_length _ _ H) in E1.
    apply lookup_ge_None in E1. by rewrite E1.
Qed.

Lemma matching_same_frame (d1 d2 : Document) :
  same_frame d1 d2 → matching d2 → matching d1.
Proof.
  intros H. unfold matching.
  rewrite !(querySelectorAll_same_frame _ _ _ H) by done.
  intros Hm. eapply Forall_impl; [exact Hm|]. intros b. simpl.
  by rewrite (target_of_same_frame _ _ _ H).
Qed.

(** ** The listener, element by element *)

Lemma lookup_forEach_remove_active nodes (doc : Document) j :
  forEach_remove_active nodes doc !! j
  = if decide (j ∈ nodes) then classList_remove "active" <$> doc !! j
    else doc !! j.
Proof.
  unfold forEach_remove_active. revert doc.
  induction nodes as [|n nodes IH]; intros doc; cbn [foldl].
  { case_decide as Hin; [by apply elem_of_nil in Hin|done]. }
  rewrite IH. destruct (decide (n = j)) as [->|Hne].
  - rewrite list_lookup_alter_eq.
    destruct (decide (j ∈ j :: nodes)) as [_|Hn];
      [|by destruct Hn; apply list_elem_of_here].
    case_decide; [|done]. destruct (doc !! j); simpl; [|done].
    by rewrite remove_remove.
  - rewrite list_lookup_alter_ne by done.
    apply decide_ext. rewrite elem_of_cons.
    split; [by right|]. intros [->|?]; [by destruct Hne|done].
Qed.

Lemma same_frame_forEach nodes (doc : Document) :
  same_frame (forEach_remove_active nodes doc) doc.
Proof.
  unfold forEach_remove_active. revert doc.
  induction nodes as [|n nodes IH]; intros doc; simpl.
  - apply same_frame_refl.
  - eapply same_frame_trans; [apply IH|].
    apply same_frame_alter, same_frame_remove.
Qed.

Lemma same_frame_on_click c b (doc : Document) :
  same_frame (on_click c b doc).1 doc.
Proof.
  unfold on_click.
  assert (same_frame
    (alter (classList_add "active") b
       (forEach_remove_active (tabPanes c)
          (forEach_remove_active (tabBtns c) doc))) doc) as H.
  { eapply same_frame_trans;
      [apply same_frame_alter, same_frame_add|].
    eapply same_frame_trans; apply same_frame_forEach. }
  destruct (getElementById _ _); simpl; [|done].
  eapply same_frame_trans; [apply same_frame_alter, same_frame_add|done].
Qed.

Lemma same_frame_click c t (doc : Document) :
  same_frame (click c t doc) doc.
Proof.
  unfold click. case_decide; [apply same_frame_on_click|].
  apply same_frame_refl.
Qed.

Lemma same_frame_clicks c ts (doc : Document) :
  same_frame (clicks c ts doc) doc.
Proof.
  unfold clicks. revert doc.
  induction ts as [|t ts IH]; intros doc; simpl; [apply same_frame_refl|].
  eapply same_frame_trans; [apply IH|apply same_frame_click].
Qed.

Lemma on_click_lookup c b p (doc : Document) :
  target_of doc b = Some p →
  (on_click c b doc).2 = true
  ∧ ∀ j, (on_click c b doc).1 !! j = after_click c b p j <$> doc !! j.
Proof.
  intros Ht. unfold on_click.
  set (d3 := alter _ b _).
  assert (same_frame d3 doc) as Hfr.
  { eapply same_frame_trans; [apply same_frame_alter, same_frame_add|].
    eapply same_frame_trans; apply same_frame_forEach. }
  rewrite (getElementById_same_frame _ _ _ Hfr).
  fold (target_of doc b). rewrite Ht. split; [done|]. intros j. simpl.
  unfold after_click, d3.
  rewrite !list_lookup_alter, !lookup_forEach_remove_active.
  destruct (doc !! j) as [e|] eqn:E.
  - repeat case_decide; subst;
      rewrite ?list_lookup_alter, ?lookup_forEach_remove_active, ?E;
      repeat case_decide; try done.
  - repeat case_decide; subst;
      rewrite ?list_lookup_alter, ?lookup_forEach_remove_active, ?E;
      repeat case_decide; try done.
Qed.

Lemma after_click_idem c b p j e :
  after_click c b p j (after_click c b p j e) = after_click c b p j e.
Proof.
  unfold after_click. repeat case_decide;
    repeat (rewrite add_add || rewrite remove_add || rewrite remove_remove);
    done.
Qed.

Lemma after_click_active c b p j e :
  classList_contains "active" (after_click c b p j e) = true
  ↔ j = b ∨ j = p
    ∨ ((j ∉ tabBtns c) ∧ (j ∉ tabPanes c)
       ∧ classList_contains "active" e = true).
Proof.
  unfold after_click.
  destruct (decide (p = j)) as [->|Hp].
  { rewrite contains_add. split; auto. }
  destruct (decide (b = j)) as [->|Hb].
  { rewrite contains_add. split; auto. }
  destruct (decide (j ∈ tabPanes c)) as [Hjp|Hjp].
  { rewrite contains_remove. split; [done|].
    intros [->|[->|(_ & Hn & _)]]; done. }
  destruct (decide (j ∈ tabBtns c)) as [Hjb|Hjb].
  { rewrite contains_remove. split; [done|].
    intros [->|[->|(Hn & _ & _)]]; done. }
  split; [auto|]. intros [->|[->|(_ & _ & Ha)]]; done.
Qed.

(** ** Counting *)

Lemma count_none (P : nat → Prop) `{!∀ i, Decision (P i)} (l : list nat) :
  (∀ j, j ∈ l → ¬ P j) → length (filter P l) = 0.
Proof.
  induction l as [|x l IH]; intros Hno; [done|].
  rewrite filter_cons_False by (apply Hno, list_elem_of_here).
  apply IH. intros j Hj. apply Hno. by apply list_elem_of_further.
Qed.

Lemma count_exactly_one (P : nat → Prop) `{!∀ i, Decision (P i)}
    (l : list nat) (b : nat) :
  NoDup l → b ∈ l → (∀ j, j ∈ l → (P j ↔ j = b)) →
  length (filter P l) = 1.
Proof.
  intros Hnd. induction Hnd as [|x l Hx Hnd IH]; intros Hb HP.
  { by apply elem_of_nil in Hb. }
  destruct (decide (x = b)) as [->|Hne].
  - rewrite filter_cons_True by (apply HP; [apply list_elem_of_here|done]).
    simpl. f_equal. apply count_none. intros j Hj HPj.
    apply HP in HPj; [|by apply list_elem_of_further]. by subst.
  - rewrite filter_cons_False.
    + apply IH.
      * apply elem_of_cons in Hb as [->|Hb]; [by destruct Hne|done].
      * intros j Hj. apply HP. by apply list_elem_of_further.
    + intros HPx. apply HP in HPx; [done|apply list_elem_of_here].
Qed.

(** ** The tab invariant *)

Lemma matching_button (doc : Document) b :
  matching doc → b ∈ querySelectorAll "tab-btn" doc →
  (b ∉ querySelectorAll "tab-pane" doc)
  ∧ ∃ p, target_of doc b = Some p ∧ p ∈ querySelectorAll "tab-pane" doc.
Proof.
  intros Hm Hb. unfold matching in Hm. rewrite Forall_forall in Hm.
  destruct (Hm b Hb) as [Hnp Ht]. split; [done|].
  destruct (target_of doc b) as [p|]; [|done]. by exists p.
Qed.

Lemma click_button c b (d : Document) :
  b ∈ tabBtns c → click c b d = (on_click c b d).1.
Proof. intros Hb. unfold click. by rewrite decide_True. Qed.

Lemma is_active_click c b p (d : Document) j :
  b ∈ tabBtns c → target_of d b = Some p → j < length d →
  is_active (click c b d) j = true
  ↔ j = b ∨ j = p
    ∨ ((j ∉ tabBtns c) ∧ (j ∉ tabPanes c) ∧ is_active d j = true).
Proof.
  intros Hb Ht Hj. unfold click. rewrite decide_True by done.
  destruct (on_click_lookup c b p d Ht) as [_ Hl].
  unfold is_active. rewrite Hl.
  destruct (lookup_lt_is_Some_2 d j Hj) as [e ->]. simpl.
  apply after_click_active.
Qed.

Lemma click_idem c b p (d : Document) :
  b ∈ tabBtns c → target_of d b = Some p →
  click c b (click c b d) = click c b d.
Proof.
  intros Hb Ht.
  assert (target_of (click c b d) b = Some p) as Ht'.
  { by rewrite (target_of_same_frame _ _ _ (same_frame_click c b d)). }
  destruct (on_click_lookup c b p _ Ht') as [_ Hl'].
  destruct (on_click_lookup c b p d Ht) as [_ Hl].
  rewrite (click_button c b (click c b d) Hb).
  apply list_eq. intros j. rewrite Hl'.
  rewrite (click_button c b d Hb), Hl.
  destruct (d !! j); simpl; [|done]. by rewrite after_click_idem.
Qed.

(** C2: on a page whose tab buttons are each tagged with the id of a
    content pane, after any sequence of clicks followed by a click on
    tab button [b] the listener has run to its end, exactly one tab
    button carries [active] (it is [b]) and exactly one pane carries it
    (the pane [b] names), all other buttons and panes do not, and
    clicking [b] once more changes nothing. *)
Theorem tabs_exactly_one_active (doc : Document) (ts : list nat) (b : nat) :
  matching doc →
  b ∈ tabBtns (initializeTabs doc) →
  let c := initializeTabs doc in
  let before := clicks c ts doc in
  let after := click c b before in
  (on_click c b before).2 = true
  ∧ after = clicks c (ts ++ [b]) doc
  ∧ count_active (tabBtns c) after = 1
  ∧ count_active (tabPanes c) after = 1
  ∧ (∀ i, i ∈ tabBtns c → (is_active after i = true ↔ i = b))
  ∧ (∀ i, i ∈ tabPanes c →
          (is_active after i = true ↔ target_of doc b = Some i))
  ∧ click c b after = after.
Proof.
  intros Hm Hb c before after.
  assert (same_frame before doc) as Hfr by apply same_frame_clicks.
  destruct (matching_button doc b Hm Hb) as (Hbp & p & Ht & Hp).
  assert (target_of before b = Some p) as Ht'.
  { by rewrite (target_of_same_frame _ _ _ Hfr). }
  assert (∀ i, i ∈ tabBtns c → i < length before) as Hlenb.
  { intros i Hi. apply elem_of_querySelectorAll in Hi.
    rewrite (same_frame_length _ _ Hfr).
    destruct (doc !! i) eqn:E; [|done]. by apply lookup_lt_Some in E. }
  assert (∀ i, i ∈ tabPanes c → i < length before) as Hlenp.
  { intros i Hi. apply elem_of_querySelectorAll in Hi.
    rewrite (same_frame_length _ _ Hfr).
    destruct (doc !! i) eqn:E; [|done]. by apply lookup_lt_Some in E. }
  assert (∀ i, i ∈ tabBtns c → (is_active after i = true ↔ i = b)) as Hbtn.
  { intros i Hi. unfold after.
    rewrite (is_active_click c b p before i Hb Ht' (Hlenb i Hi)).
    split; [|by left]. intros [->|[->|(Hn & _)]]; [done| |done].
    by destruct (matching_button doc p Hm Hi) as [Hn _]. }
  assert (∀ i, i ∈ tabPanes c → (is_active after i = true ↔ i = p))
    as Hpane.
  { intros i Hi. unfold after.
    rewrite (is_active_click c b p before i Hb Ht' (Hlenp i Hi)).
    split; [|by right; left]. intros [->|[->|(_ & Hn & _)]]; done. }
  split; [by apply (on_click_lookup c b p before Ht')|].
  split; [unfold after, before, clicks; by rewrite foldl_snoc|].
  split; [|split; [|split; [done|split]]].
  - unfold count_active. apply (count_exactly_one _ _ b); [|done|done].
    apply NoDup_querySelectorAll.
  - unfold count_active. apply (count_exactly_one _ _ p); [|done|done].
    apply NoDup_querySelectorAll.
  - intros i Hi. rewrite (Hpane i Hi), Ht. split; [by intros ->|].
    by intros [= ->].
  - by apply (click_idem c b p).
Qed.

Lemma tabs_exactly_one_active_witness :
  matching sample_tabs
  ∧ 1 ∈ tabBtns (initializeTabs sample_tabs)
  ∧ count_active (tabBtns (initializeTabs sample_tabs))
      (clicks (initializeTabs sample_tabs) [1; 0; 1] sample_tabs) = 1
  ∧ count_active (tabPanes (initializeTabs sample_tabs))
      (clicks (initializeTabs sample_tabs) [1; 0; 1] sample_tabs) = 1.
Proof.
  assert (matching sample_tabs) as Hm.
  { apply (bool_decide_unpack _). vm_compute. reflexivity. }
  assert (1 ∈ tabBtns (initializeTabs sample_tabs)) as Hb.
  { apply (bool_decide_unpack _). vm_compute. reflexivity. }
  split; [exact Hm|]. split; [exact Hb|].
  destruct (tabs_exactly_one_active sample_tabs [1; 0] 1 Hm Hb)
    as (_ & Heq & Hbtn & Hpane & _).
  rewrite Heq in Hbtn, Hpane. split; [exact Hbtn|exact Hpane].
Defined.

End TabsTheory.

(** * Properties of the string functions *)

Module JSTheory.
Import JS Obs.

Lemma append_nil_l s : EmptyString +:+ s = s.
Proof. reflexivity. Qed.

Lemma append_cons c s t : String c s +:+ t = String c (s +:+ t).
Proof. reflexivity. Qed.

Lemma append_nil_r s : s +:+ EmptyString = s.
Proof.
  induction s as [|c s IH]; [done|]. by rewrite append_cons, IH.
Qed.

Lemma append_assoc s1 s2 s3 : (s1 +:+ s2) +:+ s3 = s1 +:+ s2 +:+ s3.
Proof.
  induction s1 as [|c s1 IH]; [done|]. by rewrite !append_cons, IH.
Qed.

Lemma length_append s1 s2 :
  String.length (s1 +:+ s2) = String.length s1 + String.length s2.
Proof.
  induction s1 as [|c s1 IH]; [done|]. rewrite append_cons. simpl.
  by rewrite IH.
Qed.

Lemma substring_skip s1 t n :
  String.substring (String.length s1) n (s1 +:+ t) = String.substring 0 n t.
Proof.
  induction s1 as [|c s1 IH]; [done|]. rewrite append_cons. simpl.
  by destruct n.
Qed.

Lemma substring_prefix s2 s3 :
  String.substring 0 (String.length s2) (s2 +:+ s3) = s2.
Proof.
  induction s2 as [|c s2 IH]; [by destruct s3|]. rewrite append_cons.
  simpl. by rewrite IH.
Qed.

Lemma substring_append_middle s1 s2 s3 :
  String.substring (String.length s1) (String.length s2) (s1 +:+ s2 +:+ s3)
  = s2.
Proof. by rewrite substring_skip, substring_prefix. Qed.

(** ** The functions on examples *)

Example trim_example :
  trim ("  hi  there " +:+ nl) = "hi  there".
Proof. reflexivity. Qed.

Example replace_bold_example :
  replace_bold "a **b** c ***d** **e"
  = "a <strong>b</strong> c <strong>*d</strong> **e".
Proof. reflexivity. Qed.

Example replaceAll_example :
  replaceAll (nl +:+ nl) "</p><p>" ("a" +:+ nl +:+ nl +:+ nl +:+ "b")
  = "a</p><p>" +:+ nl +:+ "b".
Proof. reflexivity. Qed.

Example toString_example :
  toString (VArr [VNum 3; VNull; VStr "x"; VArr [VNum (-1); VBool true]])
  = "3,,x,-1,true".
Proof. reflexivity. Qed.

(** ** [trim] *)

Lemma trimStart_only_white_space s :
  only_white_space (trimStart s) = only_white_space s.
Proof.
  induction s as [|c s IH]; simpl; [done|].
  destruct (is_white_space c) eqn:E; simpl; [done|by rewrite E].
Qed.

Lemma trimEnd_empty s :
  trimEnd s = EmptyString ↔ only_white_space s = true.
Proof.
  induction s as [|c s IH]; simpl; [done|].
  destruct (trimEnd s) as [|c' t].
  - destruct IH as [IH _]. rewrite IH by done.
    destruct (is_white_space c); simpl; split; done.
  - destruct (only_white_space s).
    + destruct IH as [_ IH]. by specialize (IH eq_refl).
    + rewrite andb_false_r. split; done.
Qed.

(** The trimmed string is empty exactly for a string of white space. *)
Lemma trim_empty s : trim s = EmptyString ↔ only_white_space s = true.
Proof.
  unfold trim. by rewrite trimEnd_empty, trimStart_only_white_space.
Qed.

(** ** Headings *)

Lemma prefix_char a c s :
  String.prefix (String a EmptyString) (String c s) = bool_decide (a = c).
Proof.
  cbn [String.prefix]. destruct (ascii_dec a c) as [->|Hne].
  - rewrite bool_decide_eq_true_2 by done. by destruct s.
  - by rewrite bool_decide_eq_false_2.
Qed.

Lemma replaceAll_underscore s :
  replaceAll "_" " " s
  = map_chars (λ c, if decide (c = "_"%char) then " "%char else c) s.
Proof.
  unfold replaceAll. induction s as [|c s IH]; [done|].
  cbn [replace_go map_chars]. rewrite prefix_char.
  destruct (decide (c = "_"%char)) as [->|Hne].
  - rewrite bool_decide_eq_true_2 by done. cbn [String.length Nat.sub].
    by rewrite IH.
  - rewrite bool_decide_eq_false_2 by done. by rewrite IH.
Qed.

Lemma toUpperCase_map_chars f s :
  toUpperCase (map_chars f s) = map_chars (λ c, upper_char (f c)) s.
Proof. induction s as [|c s IH]; simpl; [done|by rewrite IH]. Qed.

Lemma heading_map_chars key :
  toUpperCase (replaceAll "_" " " key) = map_chars heading_char key.
Proof. by rewrite replaceAll_underscore, toUpperCase_map_chars. Qed.


(** ** [join] *)

Lemma join_strings sep (l : list string) :
  join sep (VStr <$> l) = String.concat sep l.
Proof.
  unfold join. induction l as [|x l IH]; [done|].
  destruct l as [|y l]; [done|].
  change (join_with toString sep (VStr <$> x :: y :: l))
    with (x +:+ sep +:+ join_with toString sep (VStr <$> y :: l)).
  by rewrite IH.
Qed.

Lemma foldl_append {A} (f : A → string) (l : list A) (acc : string) :
  foldl (λ html x, html +:+ f x) acc l
  = acc +:+ String.concat EmptyString (f <$> l).
Proof.
  revert acc. induction l as [|x l IH]; intros acc; simpl.
  - by rewrite append_nil_r.
  - rewrite IH, append_assoc. f_equal.
    destruct l; simpl; [by rewrite append_nil_r|done].
Qed.

End JSTheory.

(** * Properties of the handlers *)

Module AppTheory.
Import JS Page App Loop Obs JSTheory.

(** ** Effects a program never has *)

Section Never.
Context (P : Effect → bool).

Lemma never_ret {A} (a : A) : never P (mret a).
Proof. intros st. apply Forall_nil_2. Qed.

Lemma never_throw {A} e : never P (@throw A e).
Proof. intros st. apply Forall_nil_2. Qed.

Lemma never_gets {A} (f : State → A) : never P (gets f).
Proof. intros st. apply Forall_nil_2. Qed.

Lemma never_modify f : never P (modify f).
Proof. intros st. apply Forall_nil_2. Qed.

Lemma never_lift {A} (r : exn + A) : never P (lift r).
Proof. intros st. apply Forall_nil_2. Qed.

Lemma never_emit e : P e = false → never P (emit e).
Proof. intros He st. by apply Forall_singleton. Qed.

Lemma never_bind {A B} (m : M A) (k : A → M B) :
  never P m → (∀ a, never P (k a)) → never P (m ≫= k).
Proof.
  intros Hm Hk st. unfold mbind, M_bind, bind.
  destruct (result (m st)) as [e|a]; simpl; [apply Hm|].
  apply Forall_app. split; [apply Hm|apply Hk].
Qed.

Lemma never_try_catch_finally body handler fin :
  never P body → (∀ e, never P (handler e)) → never P fin →
  never P (try_catch_finally body handler fin).
Proof.
  intros Hb Hh Hf st. unfold try_catch_finally. simpl.
  apply Forall_app. split; [|apply Hf].
  destruct (result (body st)) as [e|a]; simpl; [|apply Hb].
  apply Forall_app. split; [apply Hb|apply Hh].
Qed.

Lemma never_addMessageToChat message sender :
  never P (addMessageToChat message sender).
Proof. intros st. apply Forall_nil_2. Qed.

Lemma never_await r : never P (await r).
Proof. destruct r; intros st; apply Forall_nil_2. Qed.
End Never.

Lemma overlay_writes_app t1 t2 :
  overlay_writes (t1 ++ t2) = overlay_writes t1 ++ overlay_writes t2.
Proof. apply omap_app. Qed.

Lemma fetches_app t1 t2 : fetches (t1 ++ t2) = fetches t1 ++ fetches t2.
Proof. apply omap_app. Qed.

Lemma never_overlay_writes {A} (m : M A) st :
  never is_overlay_write m → overlay_writes (trace (m st)) = [].
Proof.
  intros Hm. specialize (Hm st). unfold overlay_writes.
  induction Hm as [|e t He _ IH]; [done|].
  destruct e; try discriminate He; exact IH.
Qed.

Lemma never_alerts {A} (m : M A) st :
  never is_alert m → alerts (trace (m st)) = [].
Proof.
  intros Hm. specialize (Hm st). unfold alerts.
  induction Hm as [|e t He _ IH]; [done|].
  destruct e; try discriminate He; exact IH.
Qed.

Lemma never_fetches {A} (m : M A) st :
  never is_fetch m → fetches (trace (m st)) = [].
Proof.
  intros Hm. specialize (Hm st). unfold fetches.
  induction Hm as [|e t He _ IH]; [done|].
  destruct e; try discriminate He; exact IH.
Qed.

(** ** Programs that do not throw *)

Lemma total_ret {A} (a : A) : total (mret a).
Proof. intros st. by exists a. Qed.

Lemma total_modify f : total (modify f).
Proof. intros st. by exists (). Qed.

Lemma total_emit e : total (emit e).
Proof. intros st. by exists (). Qed.

Lemma total_gets {A} (f : State → A) : total (gets f).
Proof. intros st. by eexists. Qed.

Lemma total_bind {A B} (m : M A) (k : A → M B) :
  total m → (∀ a, total (k a)) → total (m ≫= k).
Proof.
  intros Hm Hk st. unfold mbind, M_bind, bind.
  destruct (Hm st) as [a ->]. simpl. apply Hk.
Qed.

Lemma total_addMessageToChat message sender :
  total (addMessageToChat message sender).
Proof. intros st. by exists (). Qed.

(** ** Relations every step of a program keeps *)

Section Respects.
Context (R : relation State) `{!PreOrder R}.

Lemma respects_ret {A} (a : A) : respects R (mret a).
Proof. by intros st. Qed.

Lemma respects_throw {A} e : respects R (@throw A e).
Proof. by intros st. Qed.

Lemma respects_gets {A} (f : State → A) : respects R (gets f).
Proof. by intros st. Qed.

Lemma respects_emit e : respects R (emit e).
Proof. by intros st. Qed.

Lemma respects_lift {A} (r : exn + A) : respects R (lift r).
Proof. by intros st. Qed.

Lemma respects_await r : respects R (await r).
Proof. by destruct r; intros st. Qed.

Lemma respects_modify f : (∀ st, R st (f st)) → respects R (modify f).
Proof. intros Hf st. apply Hf. Qed.

Lemma respects_bind {A B} (m : M A) (k : A → M B) :
  respects R m → (∀ a, respects R (k a)) → respects R (m ≫= k).
Proof.
  intros Hm Hk st. unfold mbind, M_bind, bind.
  destruct (result (m st)) as [e|a]; simpl; [apply Hm|].
  etrans; [apply Hm|apply Hk].
Qed.

Lemma respects_try_catch_finally body handler fin :
  respects R body → (∀ e, respects R (handler e)) → respects R fin →
  respects R (try_catch_finally body handler fin).
Proof.
  intros Hb Hh Hf st. unfold try_catch_finally. simpl.
  etrans; [|apply Hf].
  destruct (result (body st)) as [e|a]; simpl; [|apply Hb].
  etrans; [apply Hb|apply Hh].
Qed.
End Respects.

#[local] Instance evolves_preorder : PreOrder evolves.
Proof.
  split.
  - intros st. split; [done|]. split; [|done].
    exists []. by rewrite app_nil_r.
  - intros st1 st2 st3 (Hs12 & [l12 Ht12] & Hl12) (Hs23 & [l23 Ht23] & Hl23).
    split; [by rewrite Hs23|]. split; [|by auto].
    exists (l12 ++ l23). by rewrite Ht23, Ht12, <-(assoc_L (++)).
Qed.

(** A write to an element of the page, or the toggle of the language
    flag, is a step of [evolves]. *)
Ltac solve_evolves :=
  intros; split; [reflexivity|];
  split;
  [ first [ by exists []; rewrite app_nil_r | eexists; reflexivity ]
  | unfold two_valued; simpl; intros; repeat case_decide; auto ].

Create HintDb handlers discriminated.
#[local] Hint Resolve never_ret never_throw never_gets never_modify
  never_lift never_bind never_try_catch_finally never_addMessageToChat
  never_await total_ret total_modify total_emit total_gets total_bind
  total_addMessageToChat respects_ret respects_throw respects_gets
  respects_emit respects_lift respects_await respects_bind
  respects_try_catch_finally : handlers.
#[local] Hint Extern 0 (PreOrder evolves) =>
  exact evolves_preorder : handlers.
#[local] Hint Extern 1 (never _ (emit _)) =>
  (apply never_emit; reflexivity) : handlers.
#[local] Hint Extern 1 (respects evolves (modify _)) =>
  (apply respects_modify; solve_evolves) : handlers.
#[local] Hint Extern 2 (never _ (if ?b then _ else _)) =>
  destruct b : handlers.
#[local] Hint Extern 2 (respects _ (if ?b then _ else _)) =>
  destruct b : handlers.
#[local] Hint Extern 2 (never _ (match ?l with [] => _ | _ :: _ => _ end)) =>
  destruct l : handlers.
#[local] Hint Extern 2
  (respects _ (match ?l with [] => _ | _ :: _ => _ end)) =>
  destruct l : handlers.

Ltac handler := unfold Obs.flow_resume, Obs.flow_start,
  chatInput_keypress,
  analyzeCrop_resume, sendMessage_resume, getFarmingTips_resume,
  analyzeCrop, sendMessage, getFarmingTips,
  uploadArea_click, uploadArea_dragover, uploadArea_dragleave,
  uploadArea_drop, imageInput_change, handleImageSelect, reader_onload,
  removeImage_click, langToggle_click, addMessageToChat, showLoading;
  cbv zeta; solve [eauto 80 with handlers].

(** ** The handlers resumed by the event loop *)

Lemma resume_never_fetch f r : never is_fetch (flow_resume f r).
Proof. destruct f; handler. Qed.

Lemma chat_resume_never_alert r : never is_alert (sendMessage_resume r).
Proof. handler. Qed.

Lemma reader_onload_never P dataURL : never P (reader_onload dataURL).
Proof. handler. Qed.

(** [try ... catch ... finally { showLoading(false) }] around code that
    leaves the overlay alone, with a handler that does not throw: the
    overlay is written once, with [none], and nothing escapes. *)
Lemma finally_hides body handler st :
  never is_overlay_write body →
  (∀ e, never is_overlay_write (handler e)) → (∀ e, total (handler e)) →
  let r := try_catch_finally body handler (showLoading false) st in
  overlay_writes (trace r) = ["none"]
  ∧ loadingOverlay_display (dom (final r)) = "none"
  ∧ result r = inr ().
Proof.
  intros Hb Hq Ht. unfold try_catch_finally. simpl.
  destruct (result (body st)) as [e|[]] eqn:E; simpl.
  - destruct (Ht e (final (body st))) as [[] ->].
    by rewrite !overlay_writes_app, !never_overlay_writes.
  - rewrite E. by rewrite !overlay_writes_app, !never_overlay_writes.
Qed.

Lemma flow_resume_hides f r st :
  let e := flow_resume f r st in
  overlay_writes (trace e) = ["none"]
  ∧ loadingOverlay_display (dom (final e)) = "none"
  ∧ result e = inr ().
Proof. destruct f; apply finally_hides; handler. Qed.

(** ** The handlers up to their network call *)

Lemma analyzeCrop_run st :
  analyzeCrop st
  = match imageInput_files (dom st) with
    | [] => mkRun st [Alert "Please select an image first"] (inr None)
    | file :: _ =>
        mkRun (set_dom (set_loadingOverlay_display "flex") st)
              [OverlayDisplay "flex";
               Fetch (analyze_request file
                        (if decide (location_value (dom st) = EmptyString)
                         then "Kenya" else location_value (dom st))
                        (currentLanguage st))]
              (inr (Some AwaitAnalyze))
    end.
Proof.
  unfold analyzeCrop, mbind, M_bind, bind. simpl.
  by destruct (imageInput_files (dom st)).
Qed.

Lemma addMessageToChat_run message sender st :
  addMessageToChat message sender st
  = mkRun (with_message (entry_of message sender) st) [] (inr ()).
Proof. reflexivity. Qed.

Lemma sendMessage_run st :
  sendMessage st
  = let message := trim (chatInput_value (dom st)) in
    if decide (message = EmptyString) then mkRun st [] (inr None)
    else
      mkRun (set_dom (set_loadingOverlay_display "flex")
               (set_dom (set_chatInput_value EmptyString)
                  (with_message (entry_of (VStr message) "user") st)))
            [OverlayDisplay "flex";
             Fetch (chat_request message (sessionId st)
                      (currentLanguage st))]
            (inr (Some AwaitChat)).
Proof.
  unfold sendMessage, mbind, M_bind, bind. simpl.
  by destruct (decide (trim (chatInput_value (dom st)) = EmptyString)).
Qed.

Lemma getFarmingTips_run st :
  getFarmingTips st
  = mkRun (set_dom (set_loadingOverlay_display "flex") st)
          [OverlayDisplay "flex";
           Fetch (tips_request (cropSelect_value (dom st))
                    (seasonSelect_value (dom st)) (currentLanguage st))]
          (inr (Some AwaitTips)).
Proof. reflexivity. Qed.

(** A flow that sends a request has shown the overlay once just before,
    and is then suspended. *)
Lemma flow_start_fetch f st req :
  Fetch req ∈ trace (flow_start f st) →
  trace (flow_start f st) = [OverlayDisplay "flex"; Fetch req]
  ∧ carries_language (currentLanguage st) req
  ∧ carries_session (sessionId st) req
  ∧ ∃ k, result (flow_start f st) = inr (Some k).
Proof.
  destruct f; unfold flow_start.
  - rewrite analyzeCrop_run. destruct (imageInput_files (dom st)); simpl.
    + intros [=]%list_elem_of_singleton.
    + intros [[=]|[= ->]%list_elem_of_singleton]%elem_of_cons.
      split; [done|]. split; [left; eauto|]. split; [|eauto].
      intros Hurl. by vm_compute in Hurl.
  - rewrite sendMessage_run. simpl. case_decide; simpl.
    + intros []%elem_of_nil.
    + intros [[=]|[= ->]%list_elem_of_singleton]%elem_of_cons.
      split; [done|]. split; [right; left; eauto|]. split; [|eauto].
      intros _. eauto.
  - rewrite getFarmingTips_run. simpl.
    intros [[=]|[= ->]%list_elem_of_singleton]%elem_of_cons.
    split; [done|]. split; [right; right; eauto|]. split; [|eauto].
    intros Hurl. by vm_compute in Hurl.
Qed.

(** A flow that returns without a request has not touched the page. *)
Lemma flow_start_no_fetch f st :
  fetches (trace (flow_start f st)) = [] →
  overlay_writes (trace (flow_start f st)) = []
  ∧ result (flow_start f st) = inr None
  ∧ final (flow_start f st) = st.
Proof.
  destruct f; unfold flow_start.
  - rewrite analyzeCrop_run. by destruct (imageInput_files (dom st)).
  - rewrite sendMessage_run. simpl. by case_decide.
  - by rewrite getFarmingTips_run.
Qed.

(** C1: an invocation of the image-analysis, chat or tips flow that calls
    the network writes the overlay exactly twice, [flex] when the request
    is sent and [none] when the flow is resumed, whatever the response
    settles to (a success payload, a payload without truthy [success], a
    rejection) and whatever state [st'] the page is in by then; the
    overlay is hidden when the flow ends, and no exception leaves it. *)
Theorem loading_cleared_exactly_once
    (f : Flow) (st st' : State) (r : Settled) (req : Request) :
  Fetch req ∈ trace (flow_start f st) →
  let s := flow_start f st in
  let e := flow_resume f r st' in
  overlay_writes (trace s ++ trace e) = ["flex"; "none"]
  ∧ length (filter (λ v, v = "none") (overlay_writes (trace s ++ trace e)))
    = 1
  ∧ loadingOverlay_display (dom (final e)) = "none"
  ∧ result e = inr ().
Proof.
  intros Hreq s e.
  destruct (flow_start_fetch f st req Hreq) as [Hs _].
  destruct (flow_resume_hides f r st') as (He & Hd & Hr).
  assert (overlay_writes (trace s ++ trace e) = ["flex"; "none"]) as Hw.
  { rewrite overlay_writes_app. unfold s, e. by rewrite Hs, He. }
  rewrite Hw. done.
Qed.

(** ** Every handler, and every step of the event loop *)

Lemma elem_of_fetches req t : req ∈ fetches t ↔ Fetch req ∈ t.
Proof.
  unfold fetches. rewrite list_elem_of_omap. split.
  - intros (e & He & Heq). destruct e; try done. by injection Heq as ->.
  - intros He. by exists (Fetch req).
Qed.

Lemma never_fetch_sends {A} (m : M A) : never is_fetch m → sends_session m.
Proof. intros Hm st. by rewrite never_fetches. Qed.

Lemma flow_start_sends f : sends_session (flow_start f).
Proof.
  intros st. apply Forall_forall. intros req Hreq%elem_of_fetches.
  by destruct (flow_start_fetch f st req Hreq) as (_ & _ & Hs & _).
Qed.

Lemma chatInput_keypress_sends key : sends_session (chatInput_keypress key).
Proof.
  unfold chatInput_keypress. case_decide.
  - apply (flow_start_sends Chat).
  - apply never_fetch_sends. handler.
Qed.

Lemma then_none_final (h : M unit) st :
  final ((h;; mret None : M (option Pending)) st) = final (h st)
  ∧ trace ((h;; mret None : M (option Pending)) st) = trace (h st).
Proof.
  unfold mbind, M_bind, bind. destruct (result (h st)); simpl; [done|].
  by rewrite app_nil_r.
Qed.

Lemma sound_refl w : sound_step w w.
Proof.
  split; [done|]. exists []. split; [by rewrite app_nil_r|].
  apply Forall_nil_2.
Qed.

Lemma sound_dispatch h w :
  respects evolves h → sends_session h → sound_step w (dispatch h w).
Proof. intros He Hs. split; [apply He|]. simpl. eauto. Qed.

Lemma sound_dispatch_unit h w :
  respects evolves h → sends_session h →
  sound_step w (dispatch_unit h w).
Proof.
  intros He Hs. unfold dispatch_unit, dispatch, sound_step. simpl.
  destruct (then_none_final h (state w)) as [-> ->].
  split; [apply He|]. eauto.
Qed.

Lemma sound_resume k h w :
  respects evolves h → sends_session h → sound_step w (resume k h w).
Proof.
  intros He Hs. destruct (sound_dispatch_unit h w He Hs) as [H1 H2].
  by split.
Qed.

Lemma sound_edit f w :
  (∀ st, evolves st (set_dom f st)) → sound_step w (edit f w).
Proof.
  intros Hf. split; [apply Hf|]. exists []. simpl.
  split; [by rewrite app_nil_r|apply Forall_nil_2].
Qed.

Lemma sound_trans w1 w2 w3 :
  sound_step w1 w2 → sound_step w2 w3 → sound_step w1 w3.
Proof.
  intros (He12 & t12 & Hl12 & Hs12) (He23 & t23 & Hl23 & Hs23).
  split; [by etrans|]. exists (t12 ++ t23).
  split; [by rewrite Hl23, Hl12, <-(assoc_L (++))|].
  rewrite fetches_app. apply Forall_app. split; [done|].
  destruct He12 as [<- _]. done.
Qed.

Lemma step_sound ev w : sound_step w (step ev w).
Proof.
  destruct ev; simpl;
    try (apply sound_dispatch_unit; [handler|apply never_fetch_sends; handler]);
    try (apply sound_edit; solve_evolves).
  - apply sound_dispatch; [handler|apply never_fetch_sends; handler].
  - apply (sound_trans w (edit (set_imageInput_files files) w));
      [apply sound_edit; solve_evolves|].
    apply sound_dispatch; [handler|apply never_fetch_sends; handler].
  - apply sound_dispatch;
      [handler|apply (flow_start_sends ImageAnalysis)].
  - apply sound_dispatch; [handler|apply (flow_start_sends Chat)].
  - apply sound_dispatch; [handler|apply chatInput_keypress_sends].
  - apply sound_dispatch; [handler|apply (flow_start_sends Tips)].
  - destruct (pending w !! k) as [[[]|]|]; try apply sound_refl.
    apply sound_resume; [handler|apply never_fetch_sends; handler].
  - destruct (pending w !! k) as [[[]|]|]; try apply sound_refl;
      (apply sound_resume;
       [handler|apply never_fetch_sends; handler]).
Qed.

Lemma run_sound evs w : sound_step w (run evs w).
Proof.
  unfold run. revert w.
  induction evs as [|ev evs IH]; intros w; simpl; [apply sound_refl|].
  eapply sound_trans; [apply step_sound|apply IH].
Qed.

(** In the event loop: when a response settles for a pending flow, the
    overlay is hidden after the step. *)
Lemma settled_flow_hides k r p w :
  pending w !! k = Some (Some p) → p ≠ AwaitReader →
  loadingOverlay_display (dom (state (step (ResponseSettled k r) w)))
  = "none".
Proof.
  intros Hk Hp. unfold step. rewrite Hk.
  destruct p; [done| | |]; unfold resume, dispatch_unit, dispatch; simpl.
  - destruct (then_none_final (analyzeCrop_resume r) (state w)) as [-> _].
    apply (flow_resume_hides ImageAnalysis).
  - destruct (then_none_final (sendMessage_resume r) (state w)) as [-> _].
    apply (flow_resume_hides Chat).
  - destruct (then_none_final (getFarmingTips_resume r) (state w))
      as [-> _].
    apply (flow_resume_hides Tips).
Qed.

Lemma run_snoc evs ev w : run (evs ++ [ev]) w = step ev (run evs w).
Proof. unfold run. by rewrite foldl_snoc. Qed.

Lemma dispatch_nothing h w :
  h (state w) = mkRun (state w) [] (inr None) → dispatch h w = w.
Proof.
  intros Hh. unfold dispatch. rewrite Hh. simpl. destruct w. simpl.
  by rewrite !app_nil_r.
Qed.

(** ** Chat *)

Lemma loading_cleared_exactly_once_witness :
  let st := set_dom (set_chatInput_value " hello ") sample_state in
  let req := chat_request "hello" (sessionId sample_state) "en" in
  let failed := Rejected (TypeError "Failed to fetch") in
  Fetch req ∈ trace (flow_start Chat st)
  ∧ overlay_writes (trace (flow_start Chat st)
                    ++ trace (flow_resume Chat failed (final (flow_start Chat st))))
    = ["flex"; "none"].
Proof.
  intros st req failed.
  assert (Fetch req ∈ trace (flow_start Chat st)) as Hreq.
  { vm_compute. apply list_elem_of_further, list_elem_of_here. }
  split; [exact Hreq|].
  exact (proj1 (loading_cleared_exactly_once Chat st
                  (final (flow_start Chat st)) failed req Hreq)).
Defined.

(** C4: when the chat input is empty or holds white space only,
    [sendMessage] returns at once: the state, and with it the transcript
    and the overlay, is as before, nothing is sent, nothing is left
    pending; so for the send button and for the Enter key. *)
Theorem blank_send_is_noop (w : World) :
  only_white_space (chatInput_value (dom (state w))) = true →
  sendMessage (state w) = mkRun (state w) [] (inr None)
  ∧ step SendClick w = w
  ∧ step (KeyPress "Enter") w = w.
Proof.
  intros Hblank%trim_empty.
  assert (sendMessage (state w) = mkRun (state w) [] (inr None)) as Hrun.
  { rewrite sendMessage_run. simpl. by rewrite decide_True. }
  split; [done|]. split; by apply dispatch_nothing.
Qed.

Lemma blank_send_is_noop_witness :
  let w := edit (set_chatInput_value ("  " +:+ nl)) sample_world in
  only_white_space (chatInput_value (dom (state w))) = true
  ∧ step SendClick w = w.
Proof.
  intros w.
  assert (only_white_space (chatInput_value (dom (state w))) = true)
    as Hblank by (vm_compute; reflexivity).
  split; [exact Hblank|].
  exact (proj1 (proj2 (blank_send_is_noop w Hblank))).
Defined.

(** C5: when the trimmed chat input [text] is not empty, the send button
    appends to the transcript a child of class [message user-message]
    whose markup holds [text], empties the input field and shows the
    overlay, all before the request it sends is answered (the flow is
    left pending); whatever happens afterwards, response or not, that
    child stays where it was put. *)
Theorem send_appends_user_entry (w : World) (evs : list Event) :
  let text := trim (chatInput_value (dom (state w))) in
  text ≠ EmptyString →
  let w1 := step SendClick w in
  let entry := {| className := "message user-message";
                  innerHTML := message_open "user" +:+ text
                               +:+ message_close |} in
  transcript (state w1) = transcript (state w) ++ [entry]
  ∧ chatInput_value (dom (state w1)) = EmptyString
  ∧ pending w1 = pending w ++ [Some AwaitChat]
  ∧ log w1 = log w ++ [OverlayDisplay "flex";
                       Fetch (chat_request text (sessionId (state w))
                                (currentLanguage (state w)))]
  ∧ transcript (state (run evs w1)) !! length (transcript (state w))
    = Some entry.
Proof.
  intros text Htext w1 entry.
  assert (sendMessage (state w)
          = mkRun (set_dom (set_loadingOverlay_display "flex")
                     (set_dom (set_chatInput_value EmptyString)
                        (with_message (entry_of (VStr text) "user")
                           (state w))))
                  [OverlayDisplay "flex";
                   Fetch (chat_request text (sessionId (state w))
                            (currentLanguage (state w)))]
                  (inr (Some AwaitChat))) as Hrun.
  { rewrite sendMessage_run. simpl. by rewrite decide_False. }
  assert (w1 = dispatch sendMessage w) as Hw1 by done.
  unfold dispatch in Hw1. rewrite Hrun in Hw1. simpl in Hw1.
  assert (transcript (state w1) = transcript (state w) ++ [entry]) as Ht.
  { by rewrite Hw1. }
  split; [done|]. rewrite Hw1 at 1 2 3. do 3 (split; [done|]).
  destruct (run_sound evs w1) as [(_ & [more Hmore] & _) _].
  rewrite Hmore, Ht.
  rewrite <-(assoc_L (++)). by apply list_lookup_middle.
Qed.

Lemma send_appends_user_entry_witness :
  let w := edit (set_chatInput_value " hello ") sample_world in
  let w1 := step SendClick w in
  let failed := Rejected (TypeError "Failed to fetch") in
  trim (chatInput_value (dom (state w))) ≠ EmptyString
  ∧ className <$> transcript (state w1) = ["message user-message"]
  ∧ className <$> transcript (state (run [ResponseSettled 0 failed] w1))
    = ["message user-message"; "message bot-message"].
Proof.
  intros w w1 failed.
  assert (trim (chatInput_value (dom (state w))) ≠ EmptyString) as Htext.
  { vm_compute. discriminate. }
  split; [exact Htext|].
  destruct (send_appends_user_entry w [ResponseSettled 0 failed] Htext)
    as (Ht & _).
  split; [|vm_compute; reflexivity].
  fold w1 in Ht. rewrite Ht. vm_compute. reflexivity.
Defined.

(** C6: when the chat request fails, by a rejection (network error or
    unparsable body), by a payload [success] cannot be read from, or by
    a payload whose [success] is not truthy, the resumed flow appends
    exactly one child of class [message bot-message] whose text is one
    of two fixed sentences, shows no alert, hides the overlay and lets
    no exception out; the error itself goes to the console only. *)
Theorem chat_failure_fallback (r : Settled) (reply : string) (st : State) :
  ChatFailure r reply →
  let e := sendMessage_resume r st in
  (reply = chat_error_reply ∨ reply = chat_connection_reply)
  ∧ transcript (final e)
    = transcript st
      ++ [{| className := "message bot-message";
             innerHTML := message_open "bot" +:+ reply
                          +:+ message_close |}]
  ∧ alerts (trace e) = []
  ∧ Forall (λ eff, match eff with
                   | ConsoleError _ _ | OverlayDisplay _ => True
                   | _ => False
                   end) (trace e)
  ∧ loadingOverlay_display (dom (final e)) = "none"
  ∧ result e = inr ().
Proof.
  intros Hfail e. unfold e, sendMessage_resume, try_catch_finally.
  destruct Hfail as [err|data err Hget|data success Hget Hfalsy].
  - simpl. repeat split; auto; repeat constructor.
  - unfold mbind, M_bind, bind, lift. simpl. rewrite Hget. simpl.
    repeat split; auto; repeat constructor.
  - unfold mbind, M_bind, bind, lift. simpl. rewrite Hget. simpl.
    rewrite Hfalsy. simpl. repeat split; auto; repeat constructor.
Qed.

Lemma chat_failure_fallback_witness :
  let failed := Rejected (TypeError "Failed to fetch") in
  ChatFailure failed chat_connection_reply
  ∧ alerts (trace (sendMessage_resume failed sample_state)) = []
  ∧ result (sendMessage_resume failed sample_state) = inr ().
Proof.
  intros failed.
  assert (ChatFailure failed chat_connection_reply) as Hfail
    by apply failure_rejected.
  split; [exact Hfail|].
  destruct (chat_failure_fallback failed chat_connection_reply
              sample_state Hfail) as (_ & _ & Ha & _ & _ & Hr).
  split; [exact Ha|exact Hr].
Defined.

(** C10: [addMessageToChat] appends one child to the transcript; its
    markup is the template with the text of the message put in as it
    is, so that markup in the message is markup of the page (the text
    [<b>hi</b>] ends up as an element inside the paragraph); its class
    is [message <sender>-message]; and the transcript is scrolled to its
    full height, the new child included. *)
Theorem addMessageToChat_injects
    (message : value) (sender : string) (st : State) :
  let r := addMessageToChat message sender st in
  let entry := {| className := "message " +:+ sender +:+ "-message";
                  innerHTML := message_open sender +:+ toString message
                               +:+ message_close |} in
  transcript (final r) = transcript st ++ [entry]
  ∧ String.substring (String.length (message_open sender))
      (String.length (toString message)) (innerHTML entry)
    = toString message
  ∧ chatMessages_scrollTop (dom (final r))
    = layout_scrollHeight (dom st) (transcript st ++ [entry])
  ∧ trace r = [] ∧ result r = inr ()
  ∧ innerHTML (entry_of (VStr "<b>hi</b>") "bot")
    = nl +:+ "        <i class=" +:+ dq +:+ "fas fa-robot" +:+ dq
      +:+ "></i>"
      +:+ nl +:+ "        <div class=" +:+ dq +:+ "message-content" +:+ dq
      +:+ ">"
      +:+ nl +:+ "            <p><b>hi</b></p>"
      +:+ nl +:+ "        </div>"
      +:+ nl +:+ "    ".
Proof.
  intros r entry. split; [done|]. split.
  { simpl. apply substring_append_middle. }
  by repeat split.
Qed.

(** ** Farming tips *)

Lemma tip_section_html key value :
  tip_section (key, value)
  = section_html (map_chars heading_char key)
      (match value with
       | VArr items => join "<br>" items
       | _ => toString value
       end).
Proof. unfold tip_section, section_html. by rewrite heading_map_chars. Qed.

(** C7: a tips value that is a string is put between the tags of the
    wrapper as it is; for a mapping, the markup is the wrapper around
    one section per entry, in order, each with the key as heading, every
    underscore turned into a space and every lower-case letter into its
    capital, and with the value as text, the items of a list joined by
    [<br>]; so for [{"watering": ["daily", "morning"]}]. *)
Theorem formatTips_renders :
  (∀ text,
     formatTips (VStr text)
     = inr ("<div class=" +:+ dq +:+ "tips-text" +:+ dq +:+ ">" +:+ text
            +:+ "</div>"))
  ∧ (∀ props,
       formatTips (VObj props)
       = inr ("<div class=" +:+ dq +:+ "structured-tips" +:+ dq +:+ ">"
              +:+ String.concat EmptyString (tip_section <$> props)
              +:+ "</div>"))
  ∧ (∀ key value,
       tip_section (key, value)
       = section_html (map_chars heading_char key)
           (match value with
            | VArr items => join "<br>" items
            | _ => toString value
            end))
  ∧ (∀ items : list string,
       join "<br>" (VStr <$> items) = String.concat "<br>" items)
  ∧ (∀ text, toString (VStr text) = text)
  ∧ heading_char "_" = " "%char ∧ heading_char "w" = "W"%char
  ∧ formatTips (VObj [("watering", VArr [VStr "daily"; VStr "morning"])])
    = inr ("<div class=" +:+ dq +:+ "structured-tips" +:+ dq +:+ ">"
           +:+ nl +:+ "            <div class=" +:+ dq +:+ "tip-section"
           +:+ dq +:+ ">"
           +:+ nl +:+ "                <h4>WATERING</h4>"
           +:+ nl +:+ "                <p>daily<br>morning</p>"
           +:+ nl +:+ "            </div>"
           +:+ nl +:+ "        </div>").
Proof.
  split; [done|]. split.
  { intros props. unfold formatTips, entries.
    by rewrite foldl_append, append_assoc. }
  split; [apply tip_section_html|]. split; [apply join_strings|].
  by vm_compute.
Qed.

(** ** Language toggle *)

Lemma langToggle_click_run st :
  langToggle_click st
  = let language := if decide (currentLanguage st = "en") then "sw"
                    else "en" in
    mkRun (set_dom (set_langToggle_innerHTML
                      ("<i " +:+ attr "class" "fas fa-globe" +:+ "></i> "
                       +:+ language_label language))
             (set_currentLanguage language st))
          [] (inr ()).
Proof. reflexivity. Qed.

Lemma reachable_sound now random36 html evs :
  let w := run evs (init now random36 html) in
  sessionId (state w) = generateSessionId now random36
  ∧ two_valued (state w)
  ∧ Forall (carries_session (generateSessionId now random36))
           (fetches (log w)).
Proof.
  intros w.
  destruct (run_sound evs (init now random36 html))
    as [(Hs & _ & Hl) (t & Ht & Hf)].
  split; [done|]. split; [apply Hl; by left|].
  fold w in Ht. rewrite Ht. done.
Qed.

(** C8: on the page as loaded and after any events, the language flag is
    [en] or [sw]; a click on the toggle turns [en] into [sw] and [sw]
    into [en], so two clicks give the flag back; after each click the
    label says [English] for [en] and [Kiswahili] for [sw]; the click
    changes nothing else on the page, sends nothing and leaves the
    pending flows alone; and the requests sent from then on carry the
    new value. *)
Theorem language_toggle_involution
    (now : Z) (random36 : string) (html : DOM) (evs : list Event) :
  let w := run evs (init now random36 html) in
  let w1 := step LangToggleClick w in
  let w2 := step LangToggleClick w1 in
  let label language :=
    "<i class=" +:+ dq +:+ "fas fa-globe" +:+ dq +:+ "></i> "
    +:+ (if decide (language = "en") then "English" else "Kiswahili") in
  currentLanguage (state (init now random36 html)) = "en"
  ∧ two_valued (state w)
  ∧ (currentLanguage (state w) = "en" → currentLanguage (state w1) = "sw")
  ∧ (currentLanguage (state w) = "sw" → currentLanguage (state w1) = "en")
  ∧ currentLanguage (state w2) = currentLanguage (state w)
  ∧ langToggle_innerHTML (dom (state w1))
    = label (currentLanguage (state w1))
  ∧ langToggle_innerHTML (dom (state w2))
    = label (currentLanguage (state w2))
  ∧ dom (state w1)
    = set_langToggle_innerHTML (label (currentLanguage (state w1)))
        (dom (state w))
  ∧ sessionId (state w1) = sessionId (state w)
  ∧ log w1 = log w ∧ pending w1 = pending w
  ∧ (∀ f req, Fetch req ∈ trace (flow_start f (state w1)) →
              carries_language (currentLanguage (state w1)) req).
Proof.
  intros w w1 w2 label.
  destruct (reachable_sound now random36 html evs) as (_ & Htwo & _).
  fold w in Htwo.
  assert (∀ v, step LangToggleClick v
               = {| state := final (langToggle_click (state v));
                    pending := pending v; log := log v |}) as Hstep.
  { intros v. unfold step, dispatch_unit, dispatch. simpl.
    by rewrite !app_nil_r. }
  unfold w2, w1. rewrite !Hstep. simpl.
  split; [done|]. split; [done|].
  split; [intros ->; by rewrite decide_True|].
  split; [intros ->; by rewrite decide_False|].
  split; [destruct Htwo as [-> | ->]; by vm_compute|].
  split; [by repeat case_decide|]. split; [by repeat case_decide|].
  split; [by repeat case_decide|]. do 3 (split; [done|]).
  intros f req Hreq. by apply flow_start_fetch in Hreq as (_ & Hl & _).
Qed.

(** ** Session identifier *)

Lemma length_substring n m s : String.length (String.substring n m s) ≤ m.
Proof.
  revert n m. induction s as [|c s IH]; intros [|n] [|m]; simpl;
    try lia; try apply IH.
  specialize (IH 0 m). lia.
Qed.

(** C9: the session identifier is computed once, when the page loads,
    as [session_], the time stamp in decimal, [_] and at most nine
    characters taken from the random number in base 36 after its [0.];
    after any events the variable still holds that value, and every
    request to [/chat] sent so far has it in its [session_id] field. *)
Theorem session_id_fixed
    (now : Z) (random36 : string) (html : DOM) (evs : list Event) :
  let w := run evs (init now random36 html) in
  let suffix := String.substring 2 9 random36 in
  let session := "session_" +:+ pretty now +:+ "_" +:+ suffix in
  sessionId (state (init now random36 html)) = session
  ∧ String.length suffix ≤ 9
  ∧ generateSessionId 1700000000000 "0.4fzyo82mvyr"
    = "session_1700000000000_4fzyo82mv"
  ∧ sessionId (state w) = session
  ∧ (∀ req, req ∈ fetches (log w) →
            req_url req = "http://localhost:5000/api/chat" →
            ∃ message language,
              req_body req
              = BodyJSON (VObj [("message", VStr message);
                                ("session_id", VStr session);
                                ("language", VStr language)])).
Proof.
  intros w suffix session.
  destruct (reachable_sound now random36 html evs) as (Hs & _ & Hf).
  split; [done|]. split; [apply length_substring|].
  split; [by vm_compute|]. split; [done|].
  intros req Hreq Hurl. rewrite Forall_forall in Hf.
  destruct (Hf req Hreq Hurl) as (message & language & ->).
  by exists message, language.
Qed.

(** ** Image selection *)

(** A dropped file whose declared type does not start with [image/],
    or a drop without files, is ignored: nothing on the page changes
    and no file is read. *)
Lemma drop_non_image_ignored files w :
  (∀ file, head files = Some file →
           startsWith "image/" (file_type file) = false) →
  step (Drop files) w
  = {| state := state w; pending := pending w;
       log := log w ++ [PreventDefault] |}.
Proof.
  intros Hf. unfold step, dispatch, uploadArea_drop.
  destruct files as [|file rest]; simpl; [by rewrite app_nil_r|].
  rewrite (Hf file) by done. simpl. by rewrite app_nil_r.
Qed.

(** A file chosen in the picker is read whatever its declared type. *)
Lemma picker_reads_any_file file rest w :
  step (FilesChosen (file :: rest)) w
  = {| state := set_dom (set_imageInput_files (file :: rest)) (state w);
       pending := pending w ++ [Some AwaitReader];
       log := log w ++ [ReadAsDataURL file] |}.
Proof. reflexivity. Qed.

(** C3, where the script departs from it: a text file chosen in the
    picker, once read, is previewed and enables the analyze button,
    although its declared type does not start with [image/]; the same
    file dropped on the upload area is ignored. *)
Lemma picker_accepts_non_image :
  let file := mkFile "notes.txt" "text/plain" "abc" in
  let w0 := init 0 "0" sample_page in
  let picked :=
    run [FilesChosen [file];
         ReaderLoaded 0 "data:text/plain;base64,YWJj"] w0 in
  let dropped := run [Drop [file]] w0 in
  startsWith "image/" (file_type file) = false
  ∧ imagePreview_display (dom (state w0)) = "none"
  ∧ analyzeBtn_disabled (dom (state w0)) = true
  ∧ imagePreview_display (dom (state picked)) = "block"
  ∧ previewImg_src (dom (state picked)) = "data:text/plain;base64,YWJj"
  ∧ analyzeBtn_disabled (dom (state picked)) = false
  ∧ imagePreview_display (dom (state dropped)) = "none"
  ∧ analyzeBtn_disabled (dom (state dropped)) = true
  ∧ pending dropped = [].
Proof. by vm_compute. Qed.

End AppTheory.

(** * Further properties of the tab controller *)

Module TabsMore.
Import Tabs TabsTheory ObsMore.

Lemma on_click_lookup_none c b (doc : Document) :
  target_of doc b = None →
  (on_click c b doc).2 = false
  ∧ ∀ j, (on_click c b doc).1 !! j = after_click c b b j <$> doc !! j.
Proof.
  intros Ht. unfold on_click.
  set (d3 := alter _ b _).
  assert (same_frame d3 doc) as Hfr.
  { eapply same_frame_trans; [apply same_frame_alter, same_frame_add|].
    eapply same_frame_trans; apply same_frame_forEach. }
  rewrite (getElementById_same_frame _ _ _ Hfr).
  fold (target_of doc b). rewrite Ht. split; [done|]. intros j. simpl.
  unfold after_click, d3.
  rewrite !list_lookup_alter, !lookup_forEach_remove_active.
  destruct (doc !! j) as [e|] eqn:E.
  - repeat case_decide; subst;
      rewrite ?list_lookup_alter, ?lookup_forEach_remove_active, ?E;
      repeat case_decide; simpl; rewrite ?add_add; try done.
  - repeat case_decide; subst;
      rewrite ?list_lookup_alter, ?lookup_forEach_remove_active, ?E;
      repeat case_decide; try done.
Qed.

Lemma button_in_document (doc : Document) cls i :
  i ∈ querySelectorAll cls doc → i < length doc.
Proof.
  intros Hi%elem_of_querySelectorAll.
  destruct (doc !! i) eqn:E; [|done]. by apply lookup_lt_Some in E.
Qed.

(** X1: a tab button whose [data-tab] names no element of the page: the
    listener throws at [getElementById(...).classList], after it has
    cleared every button and pane and marked the button; the clicked
    button is then the only active button and no pane other than the
    button itself is active, so the page shows no pane. *)
Theorem tab_missing_target (doc : Document) (b : nat) :
  b ∈ tabBtns (initializeTabs doc) → target_of doc b = None →
  let c := initializeTabs doc in
  let after := click c b doc in
  (on_click c b doc).2 = false
  ∧ count_active (tabBtns c) after = 1
  ∧ (∀ i, i ∈ tabBtns c → (is_active after i = true ↔ i = b))
  ∧ (∀ i, i ∈ tabPanes c → i ≠ b → is_active after i = false).
Proof.
  intros Hb Ht c after.
  destruct (on_click_lookup_none c b doc Ht) as [Hthrow Hl].
  assert (∀ i, i < length doc →
               (is_active after i = true
                ↔ i = b ∨ ((i ∉ tabBtns c) ∧ (i ∉ tabPanes c)
                           ∧ is_active doc i = true))) as Hact.
  { intros i Hi. unfold after. rewrite (click_button c b doc Hb).
    unfold is_active. rewrite Hl.
    destruct (lookup_lt_is_Some_2 doc i Hi) as [e ->]. simpl.
    rewrite after_click_active. tauto. }
  assert (∀ i, i ∈ tabBtns c → (is_active after i = true ↔ i = b)) as Hbtn.
  { intros i Hi. rewrite (Hact i (button_in_document _ _ _ Hi)).
    split; [|by left]. by intros [->|(Hn & _)]. }
  split; [done|]. split; [|split; [done|]].
  - unfold count_active. apply (count_exactly_one _ _ b); [|done|done].
    apply NoDup_querySelectorAll.
  - intros i Hi Hne. apply not_true_is_false.
    rewrite (Hact i (button_in_document _ _ _ Hi)).
    by intros [->|(_ & Hn & _)].
Qed.

Lemma tab_missing_target_witness :
  0 ∈ tabBtns (initializeTabs broken_tabs)
  ∧ target_of broken_tabs 0 = None
  ∧ count_active (tabBtns (initializeTabs broken_tabs))
      (click (initializeTabs broken_tabs) 0 broken_tabs) = 1
  ∧ count_active (tabPanes (initializeTabs broken_tabs))
      (click (initializeTabs broken_tabs) 0 broken_tabs) = 0.
Proof.
  assert (0 ∈ tabBtns (initializeTabs broken_tabs)) as Hb.
  { apply (bool_decide_unpack _). vm_compute. reflexivity. }
  assert (target_of broken_tabs 0 = None) as Ht by (vm_compute; reflexivity).
  split; [exact Hb|]. split; [exact Ht|].
  split; [|vm_compute; reflexivity].
  exact (proj1 (proj2 (tab_missing_target broken_tabs 0 Hb Ht))).
Defined.

(** X2: whatever is clicked, the listeners change no element's id,
    [data-tab] or classes other than [active], and add or remove no
    element: [getElementById] answers as on the loaded page and the two
    lists captured by [initializeTabs] are still what
    [querySelectorAll] would return. *)
Theorem tab_clicks_keep_frame (doc : Document) (ts : list nat) :
  let c := initializeTabs doc in
  let d := clicks c ts doc in
  length d = length doc
  ∧ querySelectorAll "tab-btn" d = tabBtns c
  ∧ querySelectorAll "tab-pane" d = tabPanes c
  ∧ (∀ id, getElementById id d = getElementById id doc)
  ∧ (∀ b, target_of d b = target_of doc b)
  ∧ (∀ i tok, tok ≠ "active" →
       from_option (classList_contains tok) false (d !! i)
       = from_option (classList_contains tok) false (doc !! i)).
Proof.
  intros c d.
  assert (same_frame d doc) as Hfr by apply same_frame_clicks.
  split; [by apply same_frame_length|].
  split; [by apply querySelectorAll_same_frame|].
  split; [by apply querySelectorAll_same_frame|].
  split; [intros id; by apply getElementById_same_frame|].
  split; [intros b; by apply target_of_same_frame|].
  intros i tok Hne. by apply same_frame_contains.
Qed.

(** X3: a click on a tab button leaves alone every element that is
    neither a tab button, nor a tab pane, nor the element the button
    names: such an element keeps its classes, [active] included. *)
Theorem tab_click_leaves_others (doc : Document) (b p j : nat) :
  b ∈ tabBtns (initializeTabs doc) → target_of doc b = Some p →
  (j ∉ tabBtns (initializeTabs doc)) →
  (j ∉ tabPanes (initializeTabs doc)) →
  j ≠ p →
  click (initializeTabs doc) b doc !! j = doc !! j.
Proof.
  intros Hb Ht Hjb Hjp Hne. rewrite (click_button _ b doc Hb).
  destruct (on_click_lookup (initializeTabs doc) b p doc Ht) as [_ ->].
  destruct (doc !! j) as [e|]; [|done]. simpl. f_equal.
  unfold after_click. rewrite !decide_False; try done.
  intros ->. done.
Qed.

Lemma tab_click_leaves_others_witness :
  let doc := sample_tabs ++ [mkElement "banner" ["active"] None] in
  0 ∈ tabBtns (initializeTabs doc)
  ∧ target_of doc 0 = Some 2
  ∧ (4 ∉ tabBtns (initializeTabs doc))
  ∧ (4 ∉ tabPanes (initializeTabs doc))
  ∧ 4 ≠ 2
  ∧ click (initializeTabs doc) 0 doc !! 4
    = Some (mkElement "banner" ["active"] None).
Proof.
  intros doc.
  assert (0 ∈ tabBtns (initializeTabs doc)) as Hb.
  { apply (bool_decide_unpack _). vm_compute. reflexivity. }
  assert (target_of doc 0 = Some 2) as Ht by (vm_compute; reflexivity).
  assert (4 ∉ tabBtns (initializeTabs doc)) as Hjb.
  { apply (bool_decide_unpack _). vm_compute. reflexivity. }
  assert (4 ∉ tabPanes (initializeTabs doc)) as Hjp.
  { apply (bool_decide_unpack _). vm_compute. reflexivity. }
  assert (4 ≠ 2) as Hne by discriminate.
  repeat (split; [assumption|]).
  exact (tab_click_leaves_others doc 0 2 4 Hb Ht Hjb Hjp Hne).
Defined.

End TabsMore.

(** * Further properties of the string functions *)

Module JSMore.
Import JS Obs ObsMore JSTheory.

Lemma has_char_append c a b :
  has_char c (a +:+ b) = has_char c a || has_char c b.
Proof.
  induction a as [|x a IH]; [done|]. rewrite append_cons. simpl.
  by rewrite IH, orb_assoc.
Qed.

Lemma prefix_nil s : String.prefix EmptyString s = true.
Proof. by destruct s. Qed.

Lemma prefix_append p s : String.prefix p (p +:+ s) = true.
Proof.
  induction p as [|c p IH]; [apply prefix_nil|]. rewrite append_cons.
  cbn [String.prefix]. by destruct (ascii_dec c c).
Qed.

Lemma prefix_other a p c s :
  a ≠ c → String.prefix (String a p) (String c s) = false.
Proof. intros Hne. cbn [String.prefix]. by destruct (ascii_dec a c). Qed.

Lemma substring_all s n :
  String.length s ≤ n → String.substring 0 n s = s.
Proof.
  revert n. induction s as [|c s IH]; intros [|n] Hn; simpl in *;
    try done; try lia.
  rewrite IH; [done|lia].
Qed.

(** ** Replacing where there is nothing to replace *)

Lemma replace_go_absent a p rep s :
  has_char a s = false → replace_go (String a p) rep 0 s = s.
Proof.
  induction s as [|c s IH]; [done|]. simpl has_char.
  intros [Hc Hs]%orb_false_elim. apply bool_decide_eq_false in Hc.
  cbn [replace_go]. rewrite prefix_other by done. by rewrite IH.
Qed.

Lemma bold_go_absent s : has_char "*" s = false → bold_go 0 s = s.
Proof.
  induction s as [|c s IH]; [done|]. simpl has_char.
  intros [Hc Hs]%orb_false_elim. apply bool_decide_eq_false in Hc.
  cbn [bold_go]. rewrite prefix_other by done. by rewrite IH.
Qed.

(** ** Replacing a character everywhere *)

Lemma replaceAll_char_gone c rep s :
  has_char c rep = false →
  has_char c (replaceAll (String c EmptyString) rep s) = false.
Proof.
  intros Hrep. unfold replaceAll. induction s as [|x s IH]; [done|].
  cbn [replace_go]. rewrite prefix_char.
  destruct (decide (c = x)) as [->|Hne].
  - rewrite bool_decide_eq_true_2 by done. cbn [String.length Nat.sub].
    by rewrite has_char_append, Hrep, IH.
  - rewrite bool_decide_eq_false_2 by done. simpl.
    rewrite IH. by rewrite bool_decide_eq_false_2.
Qed.

(** ** Bold spans *)

Lemma lazy_group_found g rest :
  has_char "*" g = false → has_line_terminator g = false →
  lazy_group (g +:+ "**" +:+ rest) = Some g.
Proof.
  induction g as [|c g IH]; intros Hstar Hlt.
  - rewrite append_nil_l.
    change ("**" +:+ rest) with (String "*" (String "*" rest)).
    cbn [lazy_group].
    change (String "*" (String "*" rest)) with ("**" +:+ rest).
    by rewrite prefix_append.
  - simpl in Hstar, Hlt.
    apply orb_false_elim in Hstar as [Hc Hstar].
    apply orb_false_elim in Hlt as [Hl Hlt].
    apply bool_decide_eq_false in Hc.
    rewrite append_cons. cbn [lazy_group].
    rewrite prefix_other by done. rewrite Hl. by rewrite IH.
Qed.

Lemma bold_go_skip x y n :
  bold_go (String.length x + n) (x +:+ y) = bold_go n y.
Proof.
  induction x as [|c x IH]; [done|]. rewrite append_cons. simpl. apply IH.
Qed.

Lemma bold_go_plain a t :
  has_char "*" a = false → bold_go 0 (a +:+ t) = a +:+ bold_go 0 t.
Proof.
  induction a as [|c a IH]; [done|]. simpl has_char.
  intros [Hc Ha]%orb_false_elim. apply bool_decide_eq_false in Hc.
  rewrite !append_cons. cbn [bold_go]. rewrite prefix_other by done.
  by rewrite IH.
Qed.

Lemma bold_go_cons c s :
  bold_go 0 (String c s)
  = match (if String.prefix "**" (String c s)
           then lazy_group (String.substring 2 (String.length (String c s))
                              (String c s))
           else None) with
    | Some g =>
        "<strong>" +:+ g +:+ "</strong>"
          +:+ bold_go (String.length g + 3) s
    | None => String c (bold_go 0 s)
    end.
Proof. reflexivity. Qed.

Lemma bold_go_span g b :
  has_char "*" g = false → has_line_terminator g = false →
  bold_go 0 ("**" +:+ g +:+ "**" +:+ b)
  = "<strong>" +:+ g +:+ "</strong>" +:+ bold_go 0 b.
Proof.
  intros Hstar Hlt.
  change ("**" +:+ g +:+ "**" +:+ b)
    with (String "*" (String "*" (g +:+ "**" +:+ b))).
  rewrite bold_go_cons.
  change (String "*" (String "*" (g +:+ "**" +:+ b)))
    with ("**" +:+ (g +:+ "**" +:+ b)) at 1.
  rewrite prefix_append.
  replace (String.substring 2 _ _) with (g +:+ "**" +:+ b).
  2:{ cbn [String.substring]. symmetry. apply substring_all. simpl. lia. }
  rewrite lazy_group_found by done. do 3 f_equal.
  replace (String "*" (g +:+ "**" +:+ b))
    with (("*" +:+ g +:+ "**") +:+ b).
  2:{ by rewrite !append_assoc. }
  replace (String.length g + 3) with (String.length ("*" +:+ g +:+ "**") + 0).
  2:{ rewrite !length_append. simpl. lia. }
  apply (bold_go_skip ("*" +:+ g +:+ "**") b 0).
Qed.

End JSMore.

(** * Further properties of the handlers *)

Module AppMore.
Import JS Page App Loop Obs ObsMore JSTheory JSMore AppTheory.

(** ** [formatAnalysis] *)

Lemma formatAnalysis_text text :
  formatAnalysis (VStr text)
  = inr ("<div " +:+ attr "class" "analysis-text" +:+ "><p>"
         +:+ replaceAll nl "<br>"
               (replaceAll (nl +:+ nl) "</p><p>" (replace_bold text))
         +:+ "</p></div>").
Proof. reflexivity. Qed.

Lemma formatAnalysis_cases analysisData :
  match analysis_text analysisData with
  | Some text => formatAnalysis analysisData = formatAnalysis (VStr text)
  | None => ∃ e, formatAnalysis analysisData = inl e
  end.
Proof.
  destruct analysisData as [| | | | |items|props]; simpl; eauto.
  unfold formatAnalysis, get_prop.
  destruct (assoc "analysis" props) as [[| |[]|n|text|items|props']|];
    simpl; eauto.
  - destruct (bool_decide (n ≠ 0%Z)); eauto.
  - destruct (decide (text = EmptyString)) as [->|Hne]; simpl; [eauto|].
    by rewrite bool_decide_eq_true_2.
Qed.

(** X4: [formatAnalysis] formats a payload that is a string, or an object
    whose [analysis] is a string other than the empty one, and then
    exactly as it formats that string alone; on every other payload
    ([null], a number, an array, an object without [analysis], an object
    whose [analysis] is the empty string) it throws. *)
Theorem formatAnalysis_accepts (analysisData : value) :
  match analysis_text analysisData with
  | Some text =>
      formatAnalysis analysisData = formatAnalysis (VStr text)
      ∧ ∃ html, formatAnalysis analysisData = inr html
  | None => ∃ e, formatAnalysis analysisData = inl e
  end.
Proof.
  pose proof (formatAnalysis_cases analysisData) as H.
  destruct (analysis_text analysisData) as [text|]; [|done].
  split; [done|]. rewrite H, formatAnalysis_text. eauto.
Qed.

Lemma formatAnalysis_inr analysisData html :
  formatAnalysis analysisData = inr html →
  ∃ text, analysis_text analysisData = Some text
          ∧ formatAnalysis (VStr text) = inr html.
Proof.
  intros Hf. pose proof (formatAnalysis_cases analysisData) as H.
  destruct (analysis_text analysisData) as [text|].
  - exists text. split; [done|]. by rewrite <-H.
  - destruct H as [e He]. congruence.
Qed.

(** X5: the markup [formatAnalysis] returns holds no line feed: every
    one of the text has become a paragraph break or a [<br>]. *)
Theorem formatAnalysis_no_line_feed (analysisData : value) (html : string) :
  formatAnalysis analysisData = inr html →
  has_char "010" html = false.
Proof.
  intros (text & _ & Hf)%formatAnalysis_inr.
  rewrite formatAnalysis_text in Hf. injection Hf as <-.
  rewrite !has_char_append.
  change nl with (String "010" EmptyString) at 1.
  by rewrite replaceAll_char_gone.
Qed.

Lemma formatAnalysis_no_line_feed_witness :
  let text := "Rust." +:+ nl +:+ nl +:+ "Spray" +:+ nl +:+ "weekly" in
  formatAnalysis (VStr text)
  = inr ("<div class=" +:+ dq +:+ "analysis-text" +:+ dq
         +:+ "><p>Rust.</p><p>Spray<br>weekly</p></div>")
  ∧ has_char "010"
      ("<div class=" +:+ dq +:+ "analysis-text" +:+ dq
       +:+ "><p>Rust.</p><p>Spray<br>weekly</p></div>") = false.
Proof.
  intros text.
  assert (formatAnalysis (VStr text)
          = inr ("<div class=" +:+ dq +:+ "analysis-text" +:+ dq
                 +:+ "><p>Rust.</p><p>Spray<br>weekly</p></div>")) as Hf
    by (vm_compute; reflexivity).
  split; [exact Hf|].
  exact (formatAnalysis_no_line_feed (VStr text) _ Hf).
Defined.

(** X6: a text without asterisk and without line feed is put between the
    tags as it is: nothing in it is escaped, so markup in the analysis
    text is markup of the page. *)
Theorem formatAnalysis_plain_text (text : string) :
  has_char "*" text = false → has_char "010" text = false →
  formatAnalysis (VStr text)
  = inr ("<div class=" +:+ dq +:+ "analysis-text" +:+ dq +:+ "><p>"
         +:+ text +:+ "</p></div>").
Proof.
  intros Hstar Hlf. rewrite formatAnalysis_text.
  unfold replace_bold, replaceAll. rewrite bold_go_absent by done.
  change (nl +:+ nl) with (String "010" nl).
  rewrite (replace_go_absent "010" nl) by done.
  change nl with (String "010" EmptyString) at 1.
  by rewrite (replace_go_absent "010" EmptyString).
Qed.

Lemma formatAnalysis_plain_text_witness :
  has_char "*" "<img src=x onerror=alert(1)>" = false
  ∧ has_char "010" "<img src=x onerror=alert(1)>" = false
  ∧ formatAnalysis (VStr "<img src=x onerror=alert(1)>")
    = inr ("<div class=" +:+ dq +:+ "analysis-text" +:+ dq +:+ "><p>"
           +:+ "<img src=x onerror=alert(1)>" +:+ "</p></div>").
Proof.
  assert (has_char "*" "<img src=x onerror=alert(1)>" = false) as H1
    by (vm_compute; reflexivity).
  assert (has_char "010" "<img src=x onerror=alert(1)>" = false) as H2
    by (vm_compute; reflexivity).
  split; [exact H1|]. split; [exact H2|].
  exact (formatAnalysis_plain_text _ H1 H2).
Defined.

Lemma line_terminator_line_feed s :
  has_line_terminator s = false → has_char "010" s = false.
Proof.
  induction s as [|c s IH]; [done|]. simpl.
  intros [Hc Hs]%orb_false_elim. rewrite IH by done.
  unfold is_line_terminator in Hc.
  apply orb_false_elim in Hc as [Hc _]. apply bool_decide_eq_false in Hc.
  rewrite bool_decide_eq_false_2; [done|]. by intros ->.
Qed.

(** X7: in a one-line text [before**span**after] with no other asterisk,
    the part between the two pairs of asterisks is rendered inside
    [<strong>] tags, the asterisks are dropped and the rest is kept. *)
Theorem formatAnalysis_bold_span (before span after : string) :
  has_char "*" before = false → has_char "010" before = false →
  has_char "*" span = false → has_line_terminator span = false →
  has_char "*" after = false → has_char "010" after = false →
  formatAnalysis (VStr (before +:+ "**" +:+ span +:+ "**" +:+ after))
  = inr ("<div class=" +:+ dq +:+ "analysis-text" +:+ dq +:+ "><p>"
         +:+ before +:+ "<strong>" +:+ span +:+ "</strong>" +:+ after
         +:+ "</p></div>").
Proof.
  intros Hb1 Hb2 Hs1 Hs2 Ha1 Ha2. rewrite formatAnalysis_text.
  unfold replace_bold.
  rewrite bold_go_plain, bold_go_span, (bold_go_absent after) by done.
  set (out := before +:+ "<strong>" +:+ span +:+ "</strong>" +:+ after).
  assert (has_char "010" out = false) as Hout.
  { unfold out. rewrite !has_char_append, Hb2, Ha2.
    by rewrite (line_terminator_line_feed span). }
  unfold replaceAll. change (nl +:+ nl) with (String "010" nl).
  rewrite (replace_go_absent "010" nl) by done.
  change nl with (String "010" EmptyString) at 1.
  rewrite (replace_go_absent "010" EmptyString) by done.
  unfold out. rewrite !append_assoc. reflexivity.
Qed.

Lemma formatAnalysis_bold_span_witness :
  has_char "*" "Found " = false ∧ has_char "010" "Found " = false
  ∧ has_char "*" "leaf rust" = false
  ∧ has_line_terminator "leaf rust" = false
  ∧ has_char "*" " on maize" = false ∧ has_char "010" " on maize" = false
  ∧ formatAnalysis (VStr "Found **leaf rust** on maize")
    = inr ("<div class=" +:+ dq +:+ "analysis-text" +:+ dq +:+ "><p>"
           +:+ "Found " +:+ "<strong>" +:+ "leaf rust" +:+ "</strong>"
           +:+ " on maize" +:+ "</p></div>").
Proof.
  assert (has_char "*" "Found " = false) as H1 by (vm_compute; reflexivity).
  assert (has_char "010" "Found " = false) as H2
    by (vm_compute; reflexivity).
  assert (has_char "*" "leaf rust" = false) as H3
    by (vm_compute; reflexivity).
  assert (has_line_terminator "leaf rust" = false) as H4
    by (vm_compute; reflexivity).
  assert (has_char "*" " on maize" = false) as H5
    by (vm_compute; reflexivity).
  assert (has_char "010" " on maize" = false) as H6
    by (vm_compute; reflexivity).
  repeat (split; [assumption|]).
  exact (formatAnalysis_bold_span "Found " "leaf rust" " on maize"
           H1 H2 H3 H4 H5 H6).
Defined.

(** ** Running a program step by step *)

Lemma run_eta {A} (r : Run A) : mkRun (final r) (trace r) (result r) = r.
Proof. by destruct r. Qed.

Lemma bind_await_fulfilled {B} data (k : value → M B) st :
  (await (Fulfilled data) ≫= k) st = k data st.
Proof. unfold mbind, M_bind, bind. simpl. apply run_eta. Qed.

Lemma bind_await_rejected {B} e (k : value → M B) st :
  (await (Rejected e) ≫= k) st = mkRun st [] (inl e).
Proof. reflexivity. Qed.

Lemma bind_lift_inr {A B} (a : A) (k : A → M B) st :
  (lift (inr a) ≫= k) st = k a st.
Proof. unfold mbind, M_bind, bind. simpl. apply run_eta. Qed.

Lemma bind_lift_inl {A B} e (k : A → M B) st :
  (lift (inl e) ≫= k) st = mkRun st [] (inl e).
Proof. reflexivity. Qed.

Lemma try_returned body handler fin st st1 t1 :
  body st = mkRun st1 t1 (inr ()) →
  try_catch_finally body handler fin st
  = mkRun (final (fin st1)) (t1 ++ trace (fin st1))
          (match result (fin st1) with
           | inl e => inl e
           | inr _ => inr ()
           end).
Proof. intros Hb. unfold try_catch_finally. by rewrite Hb. Qed.

Lemma try_caught body handler fin st st1 t1 e st2 t2 :
  body st = mkRun st1 t1 (inl e) →
  handler e st1 = mkRun st2 t2 (inr ()) →
  try_catch_finally body handler fin st
  = mkRun (final (fin st2)) ((t1 ++ t2) ++ trace (fin st2))
          (match result (fin st2) with
           | inl e => inl e
           | inr _ => inr ()
           end).
Proof.
  intros Hb Hh. unfold try_catch_finally. rewrite Hb. simpl.
  by rewrite Hh.
Qed.

(** Running the body of a resumed flow on a payload, given what the
    reads from the payload return. *)
Ltac run_body :=
  repeat first
    [ rewrite bind_await_fulfilled
    | rewrite bind_await_rejected
    | rewrite bind_lift_inr
    | rewrite bind_lift_inl
    | match goal with
      | H : get_prop _ _ = _ |- _ => rewrite H
      | H : truthy _ = _ |- _ => rewrite H
      | H : formatAnalysis _ = _ |- _ => rewrite H
      | H : formatTips _ = _ |- _ => rewrite H
      end
    | progress cbv beta iota ].

(** ** The image-analysis flow, resumed *)




(** X9: when the analysis request succeeds with a payload whose analysis
    can be formatted, the resumed flow puts the formatted text into the
    results area, shows the area, scrolls it into view and hides the
    overlay; it shows no alert and writes nothing to the console. *)
Theorem analysis_success_renders
    (data success analysis : value) (text : string) (st : State) :
  get_prop data "success" = inr success → truthy success = true →
  get_prop data "analysis" = inr analysis →
  analysis_text analysis = Some text →
  let e := analyzeCrop_resume (Fulfilled data) st in
  ∃ html,
    formatAnalysis (VStr text) = inr html
    ∧ final e
      = set_dom (set_loadingOverlay_display "none")
          (set_dom (set_analysisResults_display "block")
             (set_dom (set_resultsContent_innerHTML html) st))
    ∧ trace e = [ScrollIntoView "analysisResults"; OverlayDisplay "none"]
    ∧ result e = inr ().
Proof.
  intros Hget Htruthy Han Htext e.
  assert (∃ html, formatAnalysis (VStr text) = inr html) as [html Hhtml].
  { rewrite formatAnalysis_text. eauto. }
  assert (formatAnalysis analysis = inr html) as Hf.
  { pose proof (formatAnalysis_cases analysis) as Hc.
    rewrite Htext in Hc. by rewrite Hc. }
  exists html. split; [done|].
  unfold e, analyzeCrop_resume.
  rewrite (try_returned _ _ _ st
             (set_dom (set_analysisResults_display "block")
                (set_dom (set_resultsContent_innerHTML html) st))
             [ScrollIntoView "analysisResults"]);
    [done|run_body; reflexivity].
Qed.

Lemma analysis_success_renders_witness :
  let data := VObj [("success", VBool true);
                    ("analysis", VObj [("analysis", VStr "**Rust**")])] in
  get_prop data "success" = inr (VBool true)
  ∧ truthy (VBool true) = true
  ∧ get_prop data "analysis" = inr (VObj [("analysis", VStr "**Rust**")])
  ∧ analysis_text (VObj [("analysis", VStr "**Rust**")]) = Some "**Rust**"
  ∧ ∃ html,
      formatAnalysis (VStr "**Rust**") = inr html
      ∧ resultsContent_innerHTML
          (dom (final (analyzeCrop_resume (Fulfilled data) sample_state)))
        = html.
Proof.
  intros data.
  assert (get_prop data "success" = inr (VBool true)) as H1 by reflexivity.
  assert (truthy (VBool true) = true) as H2 by reflexivity.
  assert (get_prop data "analysis"
          = inr (VObj [("analysis", VStr "**Rust**")])) as H3
    by reflexivity.
  assert (analysis_text (VObj [("analysis", VStr "**Rust**")])
          = Some "**Rust**") as H4 by reflexivity.
  repeat (split; [assumption|]).
  destruct (analysis_success_renders data _ _ _ sample_state H1 H2 H3 H4)
    as (html & Hf & Hfinal & _).
  exists html. split; [exact Hf|]. by rewrite Hfinal.
Defined.

(** ** [formatTips] and the tips flow, resumed *)




(** X12: when the tips request succeeds with tips that can be formatted,
    the resumed flow puts the formatted tips into the tips area, shows
    the area and hides the overlay; nothing else happens. *)
Theorem tips_success_renders
    (data success tips : value) (html : string) (st : State) :
  get_prop data "success" = inr success → truthy success = true →
  get_prop data "tips" = inr tips →
  formatTips tips = inr html →
  let e := getFarmingTips_resume (Fulfilled data) st in
  final e
  = set_dom (set_loadingOverlay_display "none")
      (set_dom (set_tipsResults_display "block")
         (set_dom (set_tipsContent_innerHTML html) st))
  ∧ trace e = [OverlayDisplay "none"]
  ∧ result e = inr ().
Proof.
  intros Hget Htruthy Htips Hf e.
  unfold e, getFarmingTips_resume.
  rewrite (try_returned _ _ _ st
             (set_dom (set_tipsResults_display "block")
                (set_dom (set_tipsContent_innerHTML html) st)) []);
    [done|run_body; reflexivity].
Qed.

Lemma tips_success_renders_witness :
  let data := VObj [("success", VBool true); ("tips", VStr "Mulch.")] in
  get_prop data "success" = inr (VBool true)
  ∧ truthy (VBool true) = true
  ∧ get_prop data "tips" = inr (VStr "Mulch.")
  ∧ formatTips (VStr "Mulch.")
    = inr ("<div class=" +:+ dq +:+ "tips-text" +:+ dq +:+ ">Mulch.</div>")
  ∧ tipsContent_innerHTML
      (dom (final (getFarmingTips_resume (Fulfilled data) sample_state)))
    = "<div class=" +:+ dq +:+ "tips-text" +:+ dq +:+ ">Mulch.</div>".
Proof.
  intros data.
  assert (get_prop data "success" = inr (VBool true)) as H1 by reflexivity.
  assert (truthy (VBool true) = true) as H2 by reflexivity.
  assert (get_prop data "tips" = inr (VStr "Mulch.")) as H3 by reflexivity.
  assert (formatTips (VStr "Mulch.")
          = inr ("<div class=" +:+ dq +:+ "tips-text" +:+ dq
                 +:+ ">Mulch.</div>")) as H4 by reflexivity.
  repeat (split; [assumption|]).
  destruct (tips_success_renders data _ _ _ sample_state H1 H2 H3 H4)
    as (Hfinal & _).
  by rewrite Hfinal.
Defined.

(** ** The chat flow, resumed *)



(** ** Steps of the event loop, spelled out *)

Lemma respects_final (R : relation State) {A} (h : M A) st :
  respects R h → R st (final (h st)).
Proof. intros Hh. apply Hh. Qed.

Lemma dispatch_unit_world h w :
  dispatch_unit h w
  = {| state := final (h (state w)); pending := pending w;
       log := log w ++ trace (h (state w)) |}.
Proof.
  unfold dispatch_unit, dispatch, mbind, M_bind, bind.
  destruct (result (h (state w))) as [e|[]]; simpl; by rewrite !app_nil_r.
Qed.

Lemma resume_world k h w :
  resume k h w
  = {| state := final (h (state w)); pending := <[k := None]> (pending w);
       log := log w ++ trace (h (state w)) |}.
Proof. unfold resume. by rewrite dispatch_unit_world. Qed.

Lemma step_reader_loaded k dataURL w :
  pending w !! k = Some (Some AwaitReader) →
  step (ReaderLoaded k dataURL) w
  = {| state := final (reader_onload dataURL (state w));
       pending := <[k := None]> (pending w); log := log w |}.
Proof.
  intros Hk. unfold step. rewrite Hk, resume_world. simpl.
  by rewrite app_nil_r.
Qed.

Lemma step_chat_settled k r w :
  pending w !! k = Some (Some AwaitChat) →
  step (ResponseSettled k r) w
  = {| state := final (sendMessage_resume r (state w));
       pending := <[k := None]> (pending w);
       log := log w ++ trace (sendMessage_resume r (state w)) |}.
Proof. intros Hk. unfold step. by rewrite Hk, resume_world. Qed.

Lemma step_analyze_no_file w :
  imageInput_files (dom (state w)) = [] →
  step AnalyzeClick w
  = {| state := state w; pending := pending w;
       log := log w ++ [Alert "Please select an image first"] |}.
Proof.
  intros Hf. unfold step, dispatch. rewrite analyzeCrop_run, Hf. simpl.
  by rewrite app_nil_r.
Qed.

(** ** Selecting and removing an image *)

(** X14: an image dropped on the upload area is read and, once read,
    previewed, and the analyze button is enabled; but the file input
    still holds nothing, so a click on the button sends no request: it
    shows the alert asking to select an image and changes nothing. *)
Theorem dropped_image_cannot_be_analyzed
    (w : World) (file : File) (rest : list File) (dataURL : string) :
  startsWith "image/" (file_type file) = true →
  imageInput_files (dom (state w)) = [] →
  let w1 := step (Drop (file :: rest)) w in
  let w2 := step (ReaderLoaded (length (pending w)) dataURL) w1 in
  let w3 := step AnalyzeClick w2 in
  log w1 = log w ++ [PreventDefault; ReadAsDataURL file]
  ∧ previewImg_src (dom (state w2)) = dataURL
  ∧ imagePreview_display (dom (state w2)) = "block"
  ∧ analyzeBtn_disabled (dom (state w2)) = false
  ∧ imageInput_files (dom (state w2)) = []
  ∧ state w3 = state w2
  ∧ log w3 = log w ++ [PreventDefault; ReadAsDataURL file;
                       Alert "Please select an image first"].
Proof.
  intros Himg Hfiles w1 w2 w3.
  assert (w1 = {| state := state w;
                  pending := pending w ++ [Some AwaitReader];
                  log := log w ++ [PreventDefault; ReadAsDataURL file] |})
    as Hw1.
  { unfold w1, step, dispatch, uploadArea_drop. by rewrite Himg. }
  assert (w2 = {| state := final (reader_onload dataURL (state w));
                  pending := <[length (pending w) := None]>
                               (pending w ++ [Some AwaitReader]);
                  log := log w ++ [PreventDefault; ReadAsDataURL file] |})
    as Hw2.
  { unfold w2. rewrite Hw1. apply step_reader_loaded. simpl.
    by apply list_lookup_middle. }
  assert (imageInput_files (dom (state w2)) = []) as Hf2.
  { by rewrite Hw2. }
  split; [by rewrite Hw1|]. rewrite Hw2 at 1 2 3.
  do 3 (split; [done|]). split; [done|].
  unfold w3. rewrite (step_analyze_no_file w2 Hf2). simpl.
  split; [done|]. rewrite Hw2. simpl. by rewrite <-(assoc_L (++)).
Qed.

Lemma dropped_image_cannot_be_analyzed_witness :
  startsWith "image/" (file_type sample_image) = true
  ∧ imageInput_files (dom (state sample_world)) = []
  ∧ log (run [Drop [sample_image];
              ReaderLoaded 0 "data:image/png;base64,Li4u";
              AnalyzeClick] sample_world)
    = [PreventDefault; ReadAsDataURL sample_image;
       Alert "Please select an image first"].
Proof.
  assert (startsWith "image/" (file_type sample_image) = true) as H1
    by reflexivity.
  assert (imageInput_files (dom (state sample_world)) = []) as H2
    by reflexivity.
  repeat (split; [assumption|]).
  exact (proj2 (proj2 (proj2 (proj2 (proj2 (proj2
    (dropped_image_cannot_be_analyzed sample_world sample_image []
       "data:image/png;base64,Li4u" H1 H2))))))).
Defined.

(** X15: a click on the remove button empties the file input, hides the
    preview, shows the upload prompt and disables the analyze button,
    whatever was selected; it leaves the preview image's [src] as it
    was and does nothing to the outside; a second click changes nothing
    more, and a click on the analyze button then only shows the alert
    asking to select an image. *)
Theorem remove_resets_selection (w : World) :
  let w1 := step RemoveClick w in
  imageInput_files (dom (state w1)) = []
  ∧ imagePreview_display (dom (state w1)) = "none"
  ∧ uploadArea_display (dom (state w1)) = "block"
  ∧ analyzeBtn_disabled (dom (state w1)) = true
  ∧ previewImg_src (dom (state w1)) = previewImg_src (dom (state w))
  ∧ log w1 = log w ∧ pending w1 = pending w
  ∧ step RemoveClick w1 = w1
  ∧ step AnalyzeClick w1
    = {| state := state w1; pending := pending w1;
         log := log w1 ++ [Alert "Please select an image first"] |}.
Proof.
  intros w1.
  assert (w1 = {| state := final (removeImage_click (state w));
                  pending := pending w; log := log w |}) as Hw1.
  { unfold w1, step. rewrite dispatch_unit_world. simpl.
    by rewrite app_nil_r. }
  rewrite Hw1. do 7 (split; [done|]). split.
  - unfold step. rewrite dispatch_unit_world. simpl. by rewrite app_nil_r.
  - by apply step_analyze_no_file.
Qed.

(** X16: a file still being read when the remove button is clicked: when
    the read completes, the preview is shown again and the analyze
    button enabled, while the file input holds nothing; a click on the
    button then only shows the alert asking to select an image. *)
Theorem late_reader_after_remove (w : World) (k : nat) (dataURL : string) :
  pending w !! k = Some (Some AwaitReader) →
  let w1 := step (ReaderLoaded k dataURL) (step RemoveClick w) in
  imageInput_files (dom (state w1)) = []
  ∧ imagePreview_display (dom (state w1)) = "block"
  ∧ uploadArea_display (dom (state w1)) = "none"
  ∧ previewImg_src (dom (state w1)) = dataURL
  ∧ analyzeBtn_disabled (dom (state w1)) = false
  ∧ log (step AnalyzeClick w1)
    = log w ++ [Alert "Please select an image first"].
Proof.
  intros Hk w1.
  assert (step RemoveClick w
          = {| state := final (removeImage_click (state w));
               pending := pending w; log := log w |}) as Hw0.
  { unfold step. rewrite dispatch_unit_world. simpl. by rewrite app_nil_r. }
  assert (w1 = {| state := final (reader_onload dataURL
                                    (final (removeImage_click (state w))));
                  pending := <[k := None]> (pending w); log := log w |})
    as Hw1.
  { unfold w1. rewrite Hw0. by rewrite step_reader_loaded. }
  assert (imageInput_files (dom (state w1)) = []) as Hf by (by rewrite Hw1).
  rewrite (step_analyze_no_file w1 Hf). rewrite Hw1. by repeat split.
Qed.

Lemma late_reader_after_remove_witness :
  let w := step (FilesChosen [sample_image]) sample_world in
  pending w !! 0 = Some (Some AwaitReader)
  ∧ analyzeBtn_disabled
      (dom (state (run [RemoveClick;
                        ReaderLoaded 0 "data:image/png;base64,Li4u"] w)))
    = false
  ∧ imageInput_files
      (dom (state (run [RemoveClick;
                        ReaderLoaded 0 "data:image/png;base64,Li4u"] w)))
    = [].
Proof.
  intros w.
  assert (pending w !! 0 = Some (Some AwaitReader)) as Hk by reflexivity.
  split; [exact Hk|].
  destruct (late_reader_after_remove w 0 "data:image/png;base64,Li4u" Hk)
    as (Hf & _ & _ & _ & Hd & _).
  split; [exact Hd|exact Hf].
Defined.

(** ** Responses that settle while others are pending *)

Lemma chat_resume_transcript r st :
  transcript (final (sendMessage_resume r st))
  = transcript st ++ [entry_of (reply_of r) "bot"].
Proof.
  unfold sendMessage_resume, reply_of. destruct r as [e|data].
  { rewrite (try_caught _ _ _ st st [] e
               (with_message (entry_of (VStr chat_connection_reply) "bot")
                  st) [ConsoleError "Error:" e]);
      [done|reflexivity|reflexivity]. }
  destruct (get_prop data "success") as [e|success] eqn:Hs.
  { rewrite (try_caught _ _ _ st st [] e
               (with_message (entry_of (VStr chat_connection_reply) "bot")
                  st) [ConsoleError "Error:" e]);
      [done|run_body; reflexivity|reflexivity]. }
  destruct (truthy success) eqn:Ht.
  - destruct (get_prop data "response") as [e|response] eqn:Hr.
    { destruct data; simpl in Hs, Hr; done. }
    rewrite (try_returned _ _ _ st
               (with_message (entry_of response "bot") st) []);
      [done|run_body; reflexivity].
  - rewrite (try_returned _ _ _ st
               (with_message (entry_of (VStr chat_error_reply) "bot") st)
               []);
      [done|run_body; reflexivity].
Qed.

(** X17: two chat requests pending at once: the bot's replies are
    appended in the order in which the responses settle, whichever
    request was sent first; a reply is not placed after the message it
    answers. *)
Theorem chat_replies_in_settlement_order
    (w : World) (k1 k2 : nat) (r1 r2 : Settled) :
  pending w !! k1 = Some (Some AwaitChat) →
  pending w !! k2 = Some (Some AwaitChat) →
  k1 ≠ k2 →
  transcript (state (run [ResponseSettled k2 r2; ResponseSettled k1 r1] w))
  = transcript (state w)
    ++ [entry_of (reply_of r2) "bot"; entry_of (reply_of r1) "bot"].
Proof.
  intros H1 H2 Hne. unfold run. cbn [foldl].
  rewrite (step_chat_settled k2 r2 w H2).
  rewrite step_chat_settled.
  2:{ cbn [pending]. by rewrite list_lookup_insert_ne. }
  cbn [state]. rewrite !chat_resume_transcript.
  by rewrite <-(assoc_L (++)).
Qed.

Lemma chat_replies_in_settlement_order_witness :
  let w := run [ChatTyped "first"; SendClick; ChatTyped "second"; SendClick]
               sample_world in
  let answer text := Fulfilled (VObj [("success", VBool true);
                                      ("response", VStr text)]) in
  pending w !! 0 = Some (Some AwaitChat)
  ∧ pending w !! 1 = Some (Some AwaitChat)
  ∧ 0 ≠ 1
  ∧ innerHTML <$> transcript
      (state (run [ResponseSettled 1 (answer "to second");
                   ResponseSettled 0 (answer "to first")] w))
    = [message_open "user" +:+ "first" +:+ message_close;
       message_open "user" +:+ "second" +:+ message_close;
       message_open "bot" +:+ "to second" +:+ message_close;
       message_open "bot" +:+ "to first" +:+ message_close].
Proof.
  intros w answer.
  assert (pending w !! 0 = Some (Some AwaitChat)) as H1 by reflexivity.
  assert (pending w !! 1 = Some (Some AwaitChat)) as H2 by reflexivity.
  assert (0 ≠ 1) as Hne by discriminate.
  repeat (split; [assumption|]).
  rewrite (chat_replies_in_settlement_order w 0 1 (answer "to first")
             (answer "to second") H1 H2 Hne).
  vm_compute. reflexivity.
Defined.

(** X18: the overlay does not count requests: when the response of one
    flow settles while another flow is still waiting for its response,
    the overlay is hidden all the same, and the other flow stays
    pending. *)
Theorem overlay_hidden_while_request_pending
    (w : World) (k k' : nat) (p p' : Pending) (r : Settled) :
  pending w !! k = Some (Some p) → p ≠ AwaitReader →
  pending w !! k' = Some (Some p') → k ≠ k' →
  let w1 := step (ResponseSettled k r) w in
  loadingOverlay_display (dom (state w1)) = "none"
  ∧ pending w1 !! k = Some None
  ∧ pending w1 !! k' = Some (Some p').
Proof.
  intros Hk Hp Hk' Hne w1.
  split; [by apply (settled_flow_hides k r p)|].
  assert (pending w1 = <[k := None]> (pending w)) as ->.
  { unfold w1, step. rewrite Hk.
    destruct p; [done|..]; by rewrite resume_world. }
  split.
  - apply list_lookup_insert_eq. by apply lookup_lt_Some in Hk.
  - by rewrite list_lookup_insert_ne.
Qed.

Lemma overlay_hidden_while_request_pending_witness :
  let w := run [ChatTyped "hello"; SendClick; GetTipsClick] sample_world in
  let failed := Rejected (TypeError "Failed to fetch") in
  pending w !! 0 = Some (Some AwaitChat)
  ∧ AwaitChat ≠ AwaitReader
  ∧ pending w !! 1 = Some (Some AwaitTips)
  ∧ 0 ≠ 1
  ∧ loadingOverlay_display (dom (state w)) = "flex"
  ∧ loadingOverlay_display
      (dom (state (step (ResponseSettled 0 failed) w))) = "none"
  ∧ pending (step (ResponseSettled 0 failed) w) !! 1
    = Some (Some AwaitTips).
Proof.
  intros w failed.
  assert (pending w !! 0 = Some (Some AwaitChat)) as H1 by reflexivity.
  assert (AwaitChat ≠ AwaitReader) as H2 by discriminate.
  assert (pending w !! 1 = Some (Some AwaitTips)) as H3 by reflexivity.
  assert (0 ≠ 1) as H4 by discriminate.
  repeat (split; [assumption|]).
  split; [reflexivity|].
  destruct (overlay_hidden_while_request_pending w 0 1 _ _ failed
              H1 H2 H3 H4) as (Ho & _ & Hp).
  split; [exact Ho|exact Hp].
Defined.

(** ** What every event keeps *)

#[local] Instance keeps_shown_preorder : PreOrder keeps_shown.
Proof.
  split; [intros st H; exact H|].
  intros st1 st2 st3 H12 H23 H. apply H23, H12, H.
Qed.

#[local] Instance keeps_highlight_preorder : PreOrder keeps_highlight.
Proof.
  split; [intros st H; exact H|].
  intros st1 st2 st3 H12 H23 H. apply H23, H12, H.
Qed.

#[local] Instance grows_tagged_preorder : PreOrder grows_tagged.
Proof.
  split.
  - intros st. exists []. split; [by rewrite app_nil_r|apply Forall_nil_2].
  - intros st1 st2 st3 (l12 & Ht12 & Hf12) (l23 & Ht23 & Hf23).
    exists (l12 ++ l23). split; [|by apply Forall_app].
    by rewrite Ht23, Ht12, <-(assoc_L (++)).
Qed.

(** A write to the page is a step of each of the three relations, but
    for the writes that hide the overlay or remove the highlight. *)
Ltac solve_keeps :=
  intros;
  first
    [ unfold keeps_shown; simpl; intros; first [assumption|reflexivity]
    | unfold keeps_highlight; simpl; intros; first [assumption|reflexivity]
    | exists []; split; [by rewrite app_nil_r|apply Forall_nil_2]
    | eexists; split;
      [reflexivity
      |apply Forall_singleton; first [left; reflexivity|right; reflexivity]]
    ].

Create HintDb keeps discriminated.
#[local] Hint Resolve respects_ret respects_throw respects_gets
  respects_emit respects_lift respects_await respects_bind
  respects_try_catch_finally : keeps.
#[local] Hint Extern 0 (PreOrder _) => apply _ : keeps.
#[local] Hint Extern 1 (respects _ (modify _)) =>
  (apply respects_modify; solve_keeps) : keeps.
#[local] Hint Extern 2 (respects _ (if ?b then _ else _)) =>
  destruct b : keeps.
#[local] Hint Extern 2
  (respects _ (match ?l with [] => _ | _ :: _ => _ end)) =>
  destruct l : keeps.

Ltac keeps := unfold chatInput_keypress,
  analyzeCrop_resume, sendMessage_resume, getFarmingTips_resume,
  analyzeCrop, sendMessage, getFarmingTips,
  uploadArea_click, uploadArea_dragover, uploadArea_dragleave,
  uploadArea_drop, imageInput_change, handleImageSelect, reader_onload,
  removeImage_click, langToggle_click, addMessageToChat, showLoading;
  cbv zeta; solve [eauto 80 with keeps].

(** The state after a step, for a relation the handlers of the step
    respect. *)
Ltac step_keeps :=
  unfold step;
  try match goal with
      | |- context [pending ?w !! ?k] =>
          destruct (pending w !! k) as [[[]|]|]; try reflexivity
      end;
  rewrite ?dispatch_unit_world, ?resume_world; unfold dispatch, edit;
  cbn [state];
  match goal with
  | |- ?R _ (final (?h ?st)) =>
      transitivity st;
      [ first [reflexivity|solve_keeps]
      | apply (respects_final R h st); keeps ]
  | |- _ => solve_keeps
  end.

Lemma step_keeps_shown ev w :
  not_settling ev = true → keeps_shown (state w) (state (step ev w)).
Proof. destruct ev; try discriminate; intros _; step_keeps. Qed.

Lemma step_keeps_highlight ev w :
  not_dragleave ev = true → keeps_highlight (state w) (state (step ev w)).
Proof. destruct ev; try discriminate; intros _; step_keeps. Qed.

Lemma step_grows_tagged ev w : grows_tagged (state w) (state (step ev w)).
Proof. destruct ev; step_keeps. Qed.

(** X19: no timeout and no other handler hides the overlay: once it is
    shown, it stays shown through every event until the response of some
    flow settles; a request that is never answered leaves it shown for
    good. *)
Theorem overlay_stays_until_settled (w : World) (evs : list Event) :
  loadingOverlay_display (dom (state w)) = "flex" →
  forallb not_settling evs = true →
  loadingOverlay_display (dom (state (run evs w))) = "flex".
Proof.
  unfold run. revert w.
  induction evs as [|ev evs IH]; intros w Hw Hevs; [done|].
  simpl in Hevs. apply andb_prop in Hevs as [Hev Hevs].
  cbn [foldl]. apply IH; [|done]. by apply (step_keeps_shown ev w Hev).
Qed.

Lemma overlay_stays_until_settled_witness :
  let w := run [GetTipsClick] sample_world in
  let evs := [LangToggleClick; ChatTyped " "; SendClick; DragOver;
              RemoveClick; ReaderLoaded 0 "data:,"] in
  loadingOverlay_display (dom (state w)) = "flex"
  ∧ forallb not_settling evs = true
  ∧ loadingOverlay_display (dom (state (run evs w))) = "flex".
Proof.
  intros w evs.
  assert (loadingOverlay_display (dom (state w)) = "flex") as H1
    by reflexivity.
  assert (forallb not_settling evs = true) as H2 by reflexivity.
  repeat (split; [assumption|]).
  exact (overlay_stays_until_settled w evs H1 H2).
Defined.

(** X20: the transcript only grows, and only by children of class
    [message user-message] or [message bot-message]: whatever the
    events, what was in the transcript stays at the front in the same
    order, and nothing untagged is ever appended. *)
Theorem transcript_grows_tagged (w : World) (evs : list Event) :
  ∃ more,
    transcript (state (run evs w)) = transcript (state w) ++ more
    ∧ Forall tagged more.
Proof.
  change (grows_tagged (state w) (state (run evs w))).
  unfold run. revert w.
  induction evs as [|ev evs IH]; intros w; [reflexivity|].
  cbn [foldl]. etrans; [apply (step_grows_tagged ev w)|apply IH].
Qed.

(** X21: the highlight of the upload area is set when something is
    dragged over it and removed only when the pointer leaves it: a drop
    does not remove it, nor does any other event, so after a drop the
    area stays highlighted. *)
Theorem highlight_stays_until_dragleave (w : World) (evs : list Event) :
  forallb not_dragleave evs = true →
  uploadArea_background (dom (state (run (DragOver :: evs) w))) = "#d5f4e6".
Proof.
  intros Hevs. unfold run. cbn [foldl].
  assert (uploadArea_background (dom (state (step DragOver w))) = "#d5f4e6")
    as Hw.
  { unfold step. by rewrite dispatch_unit_world. }
  revert Hw Hevs. generalize (step DragOver w). clear w. intros w.
  revert w. induction evs as [|ev evs IH]; intros w Hw Hevs; [done|].
  simpl in Hevs. apply andb_prop in Hevs as [Hev Hevs].
  cbn [foldl]. apply IH; [|done]. by apply (step_keeps_highlight ev w Hev).
Qed.

Lemma highlight_stays_until_dragleave_witness :
  forallb not_dragleave [Drop [sample_image]; ReaderLoaded 0 "data:,"]
  = true
  ∧ uploadArea_background
      (dom (state (run [DragOver; Drop [sample_image];
                        ReaderLoaded 0 "data:,"] sample_world)))
    = "#d5f4e6"
  ∧ uploadArea_background
      (dom (state (run [DragOver; DragLeave] sample_world))) = "#ecf0f1".
Proof.
  assert (forallb not_dragleave [Drop [sample_image];
                                 ReaderLoaded 0 "data:,"] = true) as H1
    by reflexivity.
  split; [exact H1|]. split; [|reflexivity].
  exact (highlight_stays_until_dragleave sample_world _ H1).
Defined.

(** ** Session identifier *)

Lemma pretty_N_go_no_underscore (x : N) (s : string) :
  has_char "_" s = false → has_char "_" (pretty_N_go x s) = false.
Proof.
  revert s. induction (N.lt_wf_0 x) as [x _ IH]; intros s Hs.
  destruct (decide (x = 0%N)) as [->|Hx]; [by rewrite pretty_N_go_0|].
  rewrite pretty_N_go_step by lia. apply IH.
  - apply N.div_lt; lia.
  - simpl. rewrite Hs, orb_false_r. apply bool_decide_eq_false.
    unfold pretty_N_char. by repeat case_match.
Qed.

Lemma pretty_Z_no_underscore (z : Z) : has_char "_" (pretty z) = false.
Proof.
  destruct z as [|p|p]; [done| |].
  - unfold pretty, pretty_Z, pretty, pretty_positive, pretty, pretty_N.
    case_decide; [done|]. by apply pretty_N_go_no_underscore.
  - unfold pretty, pretty_Z. rewrite has_char_append.
    unfold pretty, pretty_positive, pretty, pretty_N.
    case_decide; [done|]. by rewrite pretty_N_go_no_underscore.
Qed.

Lemma append_inj_l s a b : s +:+ a = s +:+ b → a = b.
Proof.
  induction s as [|c s IH]; [done|]. rewrite !append_cons.
  intros [= H]. by apply IH.
Qed.

Lemma underscore_split a b x y :
  has_char "_" a = false → has_char "_" b = false →
  a +:+ String "_" x = b +:+ String "_" y → a = b ∧ x = y.
Proof.
  revert b. induction a as [|c a IH]; intros [|c' b] Ha Hb;
    rewrite ?append_cons, ?append_nil_l; intros Heq.
  - by injection Heq as ->.
  - injection Heq as <- _. by simpl in Hb.
  - injection Heq as -> _. by simpl in Ha.
  - injection Heq as -> Heq. simpl in Ha, Hb.
    apply orb_false_elim in Ha as [_ Ha].
    apply orb_false_elim in Hb as [_ Hb].
    destruct (IH b Ha Hb Heq) as [-> ->]. done.
Qed.

(** X22: a session identifier can be taken apart again: two identifiers
    are equal only if they were made at the same time stamp and from
    random strings with the same nine characters after the [0.]; page
    loads at different milliseconds never share an identifier. *)
Theorem session_id_determines_timestamp
    (now1 now2 : Z) (random1 random2 : string) :
  generateSessionId now1 random1 = generateSessionId now2 random2 →
  now1 = now2 ∧ substr 2 9 random1 = substr 2 9 random2.
Proof.
  unfold generateSessionId. intros Heq%append_inj_l.
  change (toString (VNum now1)) with (pretty now1) in Heq.
  change (toString (VNum now2)) with (pretty now2) in Heq.
  change ("_" +:+ substr 2 9 random1)
    with (String "_" (substr 2 9 random1)) in Heq.
  change ("_" +:+ substr 2 9 random2)
    with (String "_" (substr 2 9 random2)) in Heq.
  apply underscore_split in Heq as [Hnow Hsuffix];
    [|apply pretty_Z_no_underscore..].
  split; [|done]. by apply (inj pretty).
Qed.

Lemma session_id_determines_timestamp_witness :
  generateSessionId 1700000000000 "0.4fzyo82mvyr"
  = generateSessionId 1700000000000 "0.4fzyo82mvzz"
  ∧ substr 2 9 "0.4fzyo82mvyr" = substr 2 9 "0.4fzyo82mvzz".
Proof.
  assert (generateSessionId 1700000000000 "0.4fzyo82mvyr"
          = generateSessionId 1700000000000 "0.4fzyo82mvzz") as H
    by (vm_compute; reflexivity).
  split; [exact H|].
  exact (proj2 (session_id_determines_timestamp _ _ _ _ H)).
Defined.

(** ** Headings of structured tips *)



End AppMore.
